(** * Session server: registry, connection state machine, broadcaster, pairing

    A shallow embedding of [src/server.js]: the two module-level maps
    ([sessions], [wsClients]), the transport handles returned by
    [makeWASocket] together with the closure their event handlers capture,
    the pending reconnection timers, and the push channels.  Handlers are
    written in a small state / exception / call-log monad so that they read
    like the JavaScript they embed. *)

From Stdlib Require Import ZArith String Ascii.
From stdpp Require Import base option list gmap strings.

Local Open Scope string_scope.
Local Open Scope Z_scope.
Local Open Scope list_scope.

(** ** JavaScript string primitives used by the server

    Text is modelled as [string]: the bytes of the text's UTF-8 form.  The
    operations below look only for ASCII characters (the digits, [@], [/],
    the space), whose bytes UTF-8 keeps apart from those of every other
    character, so they act on the bytes as the JavaScript operations act on
    the text.  The case mapping is not one of them: it belongs to the
    runtime, see [JsRuntime]. *)
Module JsString.

(** [!s] for a value that is either [undefined] or a string. *)
Definition falsy (s : option string) : bool :=
  match s with
  | None => true
  | Some EmptyString => true
  | Some (String _ _) => false
  end.

(** [a || b] on optional strings, with a string as last operand. *)
Definition or_else (a : option string) (b : string) : string :=
  match a with
  | Some (String c s) => String c s
  | _ => b
  end.

Definition is_digit (c : ascii) : bool :=
  ((48 <=? nat_of_ascii c) && (nat_of_ascii c <=? 57))%nat.

(** [s.replace(/[^0-9]/g, '')] *)
Fixpoint replace_non_digits (s : string) : string :=
  match s with
  | EmptyString => EmptyString
  | String c r =>
      if is_digit c then String c (replace_non_digits r)
      else replace_non_digits r
  end.

(** [s.includes(c)] for a one-character needle. *)
Fixpoint includes (c : ascii) (s : string) : bool :=
  match s with
  | EmptyString => false
  | String d r => if Ascii.eqb d c then true else includes c r
  end.

(** [s.startsWith(c)] for a one-character prefix. *)
Definition startsWith (c : ascii) (s : string) : bool :=
  match s with
  | String d _ => Ascii.eqb d c
  | EmptyString => false
  end.

(** [s.slice(1)], for a text that begins with an ASCII character (the
    server applies it to texts that begin with [/]). *)
Definition slice1 (s : string) : string :=
  match s with
  | String _ r => r
  | EmptyString => EmptyString
  end.

(** [s.split(c)[0]]: the part of [s] before the first [c]. *)
Fixpoint split_first (c : ascii) (s : string) : string :=
  match s with
  | EmptyString => EmptyString
  | String d r => if Ascii.eqb d c then EmptyString else String d (split_first c r)
  end.

Definition lower_ascii (c : ascii) : ascii :=
  let n := nat_of_ascii c in
  if ((65 <=? n) && (n <=? 90))%nat then ascii_of_nat (n + 32) else c.

(** What [s.toLowerCase()] is for a text [s] of ASCII characters. *)
Fixpoint ascii_toLowerCase (s : string) : string :=
  match s with
  | EmptyString => EmptyString
  | String c r => String (lower_ascii c) (ascii_toLowerCase r)
  end.

(** Characters matched by the regular-expression class [\s] among the
    ASCII range: tab, line feed, vertical tab, form feed, carriage return
    and space. *)
Definition is_whitespace (c : ascii) : bool :=
  let n := nat_of_ascii c in
  ((9 <=? n) && (n <=? 13) || (n =? 32))%nat.

End JsString.

(** ** The runtime's case mapping

    [String.prototype.toLowerCase] follows the Unicode case tables of the
    JavaScript runtime.  The server is modelled over an arbitrary such
    function; nothing is assumed about it. *)
Class JsRuntime := {
  toLowerCase : string → string
}.

(** The runtime of the concrete runs, all of which use ASCII text. *)
Definition ascii_runtime : JsRuntime :=
  {| toLowerCase := JsString.ascii_toLowerCase |}.

(** ** Data model *)

(** Identity of an object returned by [makeWASocket]. *)
Abbreviation handle := nat (only parsing).
(** Identity of a WebSocket object handed to the [wss] connection handler. *)
Abbreviation chan := nat (only parsing).

(** A value stored in the [sessions] map.  The literal at line 52 has the
    three properties; the spread at line 62 may yield an object without
    [sock] and [phoneNumber], hence the options. *)
Record Session := mkSession {
  sock : option handle;
  phoneNumber : option string;
  status : string
}.

(** [ws.readyState] *)
Inductive ReadyState := CONNECTING | OPEN | CLOSING | CLOSED.

#[global] Instance ReadyState_eq_dec : EqDecision ReadyState.
Proof. solve_decision. Defined.

(** The objects pushed to subscribers (before [JSON.stringify]). *)
Inductive wsEvent :=
| EvQr (data : string)
| EvConnection (st : string)
| EvMessage (from : string) (text : string) (timestamp : Z).

(** What the handlers registered on a transport handle close over, and
    whether the transport has already reported the handle closed. *)
Record SockState := mkSock {
  sk_sessionId : string;
  sk_phoneNumber : string;
  sk_live : bool
}.

(** A pending [setTimeout(() => createSession(sessionId, phoneNumber), ms)]. *)
Record Timer := mkTimer {
  t_delay : Z;
  t_sessionId : string;
  t_phoneNumber : string
}.

(** A push channel: the [sessionId] its close handler closes over ([None]
    when the connection was rejected before a handler was registered). *)
Record ChanState := mkChan {
  ch_sessionId : option string;
  ch_readyState : ReadyState
}.

Record World := mkWorld {
  sessions : gmap string Session;
  wsClients : gmap string (list chan);
  socks : list SockState;
  timers : list Timer;
  chans : list ChanState
}.

Definition init : World := mkWorld ∅ ∅ [] [] [].

(** Calls made to the outside: subscribers, transport, timers. *)
Inductive call :=
| WsSend (c : chan) (data : wsEvent)
| WsCloseCall (c : chan) (code : Z) (reason : string)
| MakeWASocket (h : handle)
| SockSendMessage (h : handle) (jid : string) (text : string)
| SockRequestPairingCode (h : handle) (phone : string)
| SockLogout (h : handle)
| Delay (ms : Z).

(** ** The handler monad: state, exceptions, call log *)

Inductive completion (A : Type) :=
| Normal (a : A)
| Thrown (e : string).
Arguments Normal {A} a.
Arguments Thrown {A} e.

Definition M (A : Type) : Type := World -> completion A * World * list call.

Definition ret {A} (a : A) : M A := fun w => (Normal a, w, []).

Definition bind {A B} (m : M A) (f : A -> M B) : M B :=
  fun w =>
    match m w with
    | (Normal a, w1, t1) =>
        match f a w1 with
        | (r, w2, t2) => (r, w2, t1 ++ t2)
        end
    | (Thrown e, w1, t1) => (Thrown e, w1, t1)
    end.

Definition throw {A} (e : string) : M A := fun w => (Thrown e, w, []).

(** [try { m } catch (error) { h error.message }] *)
Definition try_catch {A} (m : M A) (h : string -> M A) : M A :=
  fun w =>
    match m w with
    | (Normal a, w1, t1) => (Normal a, w1, t1)
    | (Thrown e, w1, t1) =>
        match h e w1 with
        | (r, w2, t2) => (r, w2, t1 ++ t2)
        end
    end.

Definition gets {A} (f : World -> A) : M A := fun w => (Normal (f w), w, []).
Definition modify (f : World -> World) : M unit := fun w => (Normal tt, f w, []).
Definition emit (c : call) : M unit := fun w => (Normal tt, w, [c]).

#[global] Instance M_ret : MRet M := @ret.
#[global] Instance M_bind : MBind M := fun A B f m => bind m f.

(** [l.forEach(f)] *)
Fixpoint forEach {A} (l : list A) (f : A -> M unit) : M unit :=
  match l with
  | [] => ret tt
  | x :: r => f x ;; forEach r f
  end.

Definition result_of {A} (r : completion A * World * list call) : completion A := r.1.1.
Definition world_of {A} (r : completion A * World * list call) : World := r.1.2.
Definition calls_of {A} (r : completion A * World * list call) : list call := r.2.

(** ** Broadcaster (lines 29-36) *)

Definition readyState (ws : chan) (w : World) : ReadyState :=
  match chans w !! ws with
  | Some c => ch_readyState c
  | None => CLOSED
  end.

Definition subscribers (sessionId : string) (w : World) : list chan :=
  default [] (wsClients w !! sessionId).

Definition broadcast (sessionId : string) (data : wsEvent) : M unit :=
  clients ← gets (subscribers sessionId);
  forEach clients (λ ws,
    rs ← gets (readyState ws);
    if decide (rs = OPEN) then emit (WsSend ws data) else ret tt).

(** ** World updates *)

Definition with_sessions (f : gmap string Session -> gmap string Session) (w : World) : World :=
  mkWorld (f (sessions w)) (wsClients w) (socks w) (timers w) (chans w).
Definition with_wsClients (f : gmap string (list chan) -> gmap string (list chan)) (w : World) : World :=
  mkWorld (sessions w) (f (wsClients w)) (socks w) (timers w) (chans w).
Definition with_socks (f : list SockState -> list SockState) (w : World) : World :=
  mkWorld (sessions w) (wsClients w) (f (socks w)) (timers w) (chans w).
Definition with_timers (f : list Timer -> list Timer) (w : World) : World :=
  mkWorld (sessions w) (wsClients w) (socks w) (f (timers w)) (chans w).
Definition with_chans (f : list ChanState -> list ChanState) (w : World) : World :=
  mkWorld (sessions w) (wsClients w) (socks w) (timers w) (f (chans w)).

(** ** Transport collaborator

    The transport is opaque: whether an awaited call resolves or rejects is
    an input of the model ([None]: resolved; [Some e]: rejected with an
    error whose message is [e]). *)

(** [DisconnectReason.loggedOut] of the transport library. *)
Definition loggedOut : Z := 401.

(** Message of the [TypeError] raised by a property access on [undefined]. *)
Definition type_error (prop : string) : string :=
  String.append "Cannot read properties of undefined (reading '" (String.append prop "')").

Definition await (outcome : option string) : M unit :=
  match outcome with
  | None => ret tt
  | Some e => throw e
  end.

(** [makeWASocket({...})]: a fresh object; the handlers registered on it at
    lines 54-112 close over [sessionId] and [phoneNumber]. *)
Definition makeWASocket (sessionId phoneNumber : string) : M handle :=
  h ← gets (λ w, length (socks w));
  modify (with_socks (λ l, l ++ [mkSock sessionId phoneNumber true]));;
  emit (MakeWASocket h);;
  ret h.

(** [await sock.sendMessage(jid, { text })] *)
Definition sock_sendMessage (sock : option handle) (jid text : string)
    (outcome : option string) : M unit :=
  match sock with
  | None => throw (type_error "sendMessage")
  | Some h => emit (SockSendMessage h jid text);; await outcome
  end.

(** [await sock.requestPairingCode(phone)] *)
Definition sock_requestPairingCode (sock : option handle) (phone : string)
    (outcome : string + string) : M string :=
  match sock with
  | None => throw (type_error "requestPairingCode")
  | Some h =>
      emit (SockRequestPairingCode h phone);;
      match outcome with
      | inl code => ret code
      | inr e => throw e
      end
  end.

(** [await sock.logout()] *)
Definition sock_logout (sock : option handle) (outcome : option string) : M unit :=
  match sock with
  | None => throw (type_error "logout")
  | Some h => emit (SockLogout h);; await outcome
  end.

(** [setTimeout(() => createSession(sessionId, phoneNumber), ms)] *)
Definition setTimeout_createSession (ms : Z) (sessionId phoneNumber : string) : M unit :=
  modify (with_timers (λ l, l ++ [mkTimer ms sessionId phoneNumber])).

(** ** createSession (lines 39-115)

    [setup] is the outcome of the awaited set-up calls of lines 40-50
    ([fetchLatestBaileysVersion], [useMultiFileAuthState]) and of the
    constructor; no suspension point lies between the constructor, the
    registry write and the handler registrations. *)
Definition createSession (sessionId phoneNumber : string) (setup : option string) : M handle :=
  await setup;;
  sock ← makeWASocket sessionId phoneNumber;
  modify (with_sessions
            <[sessionId := mkSession (Some sock) (Some phoneNumber) "connecting"]>);;
  ret sock.

(** ** connection.update handler (lines 54-78) *)

Record ConnectionUpdate := mkUpdate {
  connection : option string;
  (** [lastDisconnect?.error?.output?.statusCode] *)
  statusCode : option Z;
  qr : option string
}.

(** [{ ...sessions.get(sessionId), status }]: spreading [undefined] yields
    no properties. *)
Definition spread_status (cur : option Session) (st : string) : Session :=
  match cur with
  | Some s => mkSession (sock s) (phoneNumber s) st
  | None => mkSession None None st
  end.

Definition on_connection_update (sessionId phoneNumber : string)
    (update : ConnectionUpdate) : M unit :=
  (if JsString.falsy (qr update) then ret tt
   else broadcast sessionId (EvQr (default "" (qr update))));;
  (if decide (connection update = Some "open") then
     cur ← gets (λ w, sessions w !! sessionId);
     modify (with_sessions <[sessionId := spread_status cur "connected"]>);;
     broadcast sessionId (EvConnection "connected")
   else ret tt);;
  (if decide (connection update = Some "close") then
     let shouldReconnect := bool_decide (statusCode update ≠ Some loggedOut) in
     if shouldReconnect then
       setTimeout_createSession 5000 sessionId phoneNumber
     else
       modify (with_sessions (delete sessionId));;
       broadcast sessionId (EvConnection "logged_out")
   else ret tt).

(** ** messages.upsert handler (lines 82-112) *)

Record MessageKey := mkKey {
  remoteJid : string;
  fromMe : bool
}.

Record ExtendedTextMessage := mkExt {
  ext_text : option string
}.

Record MessageContent := mkContent {
  conversation : option string;
  extendedTextMessage : option ExtendedTextMessage
}.

Record WAMessage := mkMsg {
  key : MessageKey;
  message : option MessageContent
}.

(** What the environment supplies while one message is processed: the
    reading of [Date.now()] and the outcome of the awaited reply. *)
Record MsgOracle := mkOracle {
  now : Z;
  ack : option string
}.

(** [msg.message?.conversation] and [msg.message?.extendedTextMessage?.text] *)
Definition direct_text (msg : WAMessage) : option string :=
  match message msg with
  | Some m => conversation m
  | None => None
  end.

Definition extended_text (msg : WAMessage) : option string :=
  match message msg with
  | Some m =>
      match extendedTextMessage m with
      | Some e => ext_text e
      | None => None
      end
  | None => None
  end.

(** [msg.message?.conversation || msg.message?.extendedTextMessage?.text || ''] *)
Definition extract_text (msg : WAMessage) : string :=
  JsString.or_else (direct_text msg) (JsString.or_else (extended_text msg) "").

Section Server.

Context {rt : JsRuntime}.

(** [text.slice(1).split(' ')[0].toLowerCase()] *)
Definition command_of (text : string) : string :=
  toLowerCase (JsString.split_first " " (JsString.slice1 text)).

Definition ack_text (text : string) : string :=
  String.append "Command received: /" (command_of text).

(** The body of the [for ... of] loop; [continue] ends the body. *)
Definition process_message (sessionId : string) (sock : handle)
    (msg : WAMessage) (o : MsgOracle) : M unit :=
  if fromMe (key msg) then ret tt
  else
    let text := extract_text msg in
    if JsString.falsy (Some text) then ret tt
    else
      let from := remoteJid (key msg) in
      broadcast sessionId (EvMessage from text (now o));;
      if JsString.startsWith "/" text then
        sock_sendMessage (Some sock) from (ack_text text) (ack o)
      else ret tt.

(** The loop: an exception leaves it; [o i] is the environment of the
    message at position [i]. *)
Fixpoint for_of (sessionId : string) (sock : handle) (messages : list WAMessage)
    (o : nat -> MsgOracle) (i : nat) : M unit :=
  match messages with
  | [] => ret tt
  | msg :: rest =>
      process_message sessionId sock msg (o i);;
      for_of sessionId sock rest o (S i)
  end.

Definition on_messages_upsert (sessionId : string) (sock : handle)
    (messages : list WAMessage) (type : string) (o : nat -> MsgOracle) : M unit :=
  if decide (type ≠ "notify") then ret tt
  else for_of sessionId sock messages o 0.

(** ** HTTP route handlers

    Request fields are either absent or strings.  A response is the status
    code ([200] unless [res.status] is called) and the JSON body. *)

Inductive ResBody :=
| ErrorBody (error : string)
| PairBody (pairCode : string) (msg : string)
| StatusBody (st : string)
| SuccessBody
| HealthBody (activeSessions : nat).

Record Response := mkResponse {
  res_status : Z;
  res_json : ResBody
}.

Record PairOracle := mkPairOracle {
  setup_outcome : option string;
  (** [inl code]: the transport issued [code]; [inr e]: it rejected. *)
  pairing_outcome : string + string
}.

Definition pair_message : string :=
  "Enter this code in WhatsApp > Linked Devices > Link a Device".

(** [POST /api/pair] (lines 118-147).  [session] is read when
    [createSession] has returned, taken here to be before any other
    callback runs, so what happens during the settle interval does not
    change the handle the code is requested from. *)
Definition api_pair (sessionId phoneNumber : option string) (o : PairOracle) : M Response :=
  try_catch
    (if JsString.falsy sessionId || JsString.falsy phoneNumber then
       ret (mkResponse 400 (ErrorBody "sessionId and phoneNumber required"))
     else
       let sid := default "" sessionId in
       let cleanPhone := JsString.replace_non_digits (default "" phoneNumber) in
       createSession sid cleanPhone (setup_outcome o);;
       session ← gets (λ w, sessions w !! sid);
       emit (Delay 2000);;
       match session with
       | None => throw (type_error "sock")
       | Some s =>
           code ← sock_requestPairingCode (sock s) cleanPhone (pairing_outcome o);
           ret (mkResponse 200 (PairBody code pair_message))
       end)
    (λ e, ret (mkResponse 500 (ErrorBody e))).

(** [GET /api/status/:sessionId] (lines 150-159) *)
Definition api_status (sessionId : string) : M Response :=
  session ← gets (λ w, sessions w !! sessionId);
  match session with
  | None => ret (mkResponse 200 (StatusBody "not_found"))
  | Some s => ret (mkResponse 200 (StatusBody (status s)))
  end.

(** [sessions.get(key)] for a key that may be [undefined]. *)
Definition sessions_get (key : option string) (w : World) : option Session :=
  match key with
  | Some sid => sessions w !! sid
  | None => None
  end.

(** [to.includes('@') ? to : `${to}@s.whatsapp.net`] *)
Definition jid_of (to : string) : string :=
  if JsString.includes "@" to then to else String.append to "@s.whatsapp.net".

(** [POST /api/send] (lines 162-178) *)
Definition api_send (sessionId to : option string) (message : string)
    (send_outcome : option string) : M Response :=
  try_catch
    (session ← gets (sessions_get sessionId);
     match session with
     | None => ret (mkResponse 400 (ErrorBody "Session not connected"))
     | Some s =>
         if decide (status s ≠ "connected") then
           ret (mkResponse 400 (ErrorBody "Session not connected"))
         else
           match to with
           | None => throw (type_error "includes")
           | Some to =>
               let jid := jid_of to in
               sock_sendMessage (sock s) jid message send_outcome;;
               ret (mkResponse 200 SuccessBody)
           end
     end)
    (λ e, ret (mkResponse 500 (ErrorBody e))).

(** [POST /api/disconnect/:sessionId] (lines 181-191), run without another
    callback between the awaited [logout] and line 187; there is no [try]:
    a rejected [logout] leaves the handler without a response. *)
Definition api_disconnect (sessionId : string) (logout_outcome : option string) : M Response :=
  session ← gets (λ w, sessions w !! sessionId);
  match session with
  | Some s =>
      sock_logout (sock s) logout_outcome;;
      modify (with_sessions (delete sessionId))
  | None => ret tt
  end;;
  ret (mkResponse 200 SuccessBody).

(** Lines 187-190 of the same route, as they run when other callbacks came
    in while [logout] was awaited. *)
Definition api_disconnect_resume (sessionId : string) : M Response :=
  modify (with_sessions (delete sessionId));;
  ret (mkResponse 200 SuccessBody).

(** [GET /health] (lines 194-200), without the uptime reading. *)
Definition api_health : M Response :=
  n ← gets (λ w, size (sessions w));
  ret (mkResponse 200 (HealthBody n)).

(** ** Push channel handlers (lines 203-230) *)

Definition set_readyState (ws : chan) (rs : ReadyState) (w : World) : World :=
  with_chans (alter (λ c, mkChan (ch_sessionId c) rs) ws) w.

(** [ws.on('close', ...)] registered by the connection handler *)
Definition ws_on_close (sessionId : string) (ws : chan) : M unit :=
  clients ← gets (subscribers sessionId);
  modify (with_wsClients <[sessionId := filter (λ c, c ≠ ws) clients]>).

(** [wss.on('connection', ...)]; [sessionId] is
    [url.searchParams.get('sessionId')]. *)
Definition wss_on_connection (ws : chan) (sessionId : option string) : M unit :=
  if JsString.falsy sessionId then
    emit (WsCloseCall ws 1008 "sessionId required");;
    modify (set_readyState ws CLOSING)
  else
    let sid := default "" sessionId in
    has ← gets (λ w, bool_decide (is_Some (wsClients w !! sid)));
    (if has : bool then ret tt else modify (with_wsClients <[sid := ([] : list chan)]>));;
    modify (with_wsClients (λ m, <[sid := default ([] : list chan) (m !! sid) ++ [ws]]> m));;
    session ← gets (λ w, sessions w !! sid);
    match session with
    | Some s => emit (WsSend ws (EvConnection (status s)))
    | None => ret tt
    end;;
    modify (with_chans (alter (λ c, mkChan (Some sid) (ch_readyState c)) ws)).

(** ** The event loop

    One input is one callback run by the loop; its outcome oracles are part
    of the input.  [exec] is [None] when the input cannot occur in the
    given state (an event of a handle already closed, a timer that is not
    pending, a channel that does not exist).  The only write that follows
    a suspension point after a read is line 187; [HttpDisconnectResume]
    lets it run at any later time.

    [exec] gives the state a callback leaves and the calls it made.  When
    the callback ends by throwing, [unhandled_rejection] gives the error.
    What the runtime does with a rejection that nothing handles (by
    default it ends the process) is outside the model: [run] goes on, so
    [reachable] also holds the states that would follow one. *)

Inductive input :=
| HttpPair (sessionId phoneNumber : option string) (o : PairOracle)
| HttpStatus (sessionId : string)
| HttpSend (sessionId to : option string) (message : string) (o : option string)
| HttpDisconnect (sessionId : string) (o : option string)
| HttpDisconnectResume (sessionId : string)
| HttpHealth
| SockConnectionUpdate (h : handle) (u : ConnectionUpdate)
| SockMessagesUpsert (h : handle) (messages : list WAMessage) (type : string)
    (o : nat -> MsgOracle)
| TimerFire (i : nat) (setup : option string)
| WsConnect (sessionId : option string)
| WsClosing (c : chan)
| WsClosed (c : chan).

Definition outcome {A} (r : completion A * World * list call) : World * list call :=
  (world_of r, calls_of r).

Definition mark_closed (h : handle) (w : World) : World :=
  with_socks (alter (λ s, mkSock (sk_sessionId s) (sk_phoneNumber s) false) h) w.

Definition exec (w : World) (i : input) : option (World * list call) :=
  match i with
  | HttpPair sid phone o => Some (outcome (api_pair sid phone o w))
  | HttpStatus sid => Some (outcome (api_status sid w))
  | HttpSend sid to msg o => Some (outcome (api_send sid to msg o w))
  | HttpDisconnect sid o => Some (outcome (api_disconnect sid o w))
  | HttpDisconnectResume sid => Some (outcome (api_disconnect_resume sid w))
  | HttpHealth => Some (outcome (api_health w))
  | SockConnectionUpdate h u =>
      match socks w !! h with
      | Some s =>
          if sk_live s then
            let w1 := if decide (connection u = Some "close") then mark_closed h w else w in
            Some (outcome (on_connection_update (sk_sessionId s) (sk_phoneNumber s) u w1))
          else None
      | None => None
      end
  | SockMessagesUpsert h msgs type o =>
      match socks w !! h with
      | Some s =>
          if sk_live s then
            Some (outcome (on_messages_upsert (sk_sessionId s) h msgs type o w))
          else None
      | None => None
      end
  | TimerFire i setup =>
      match timers w !! i with
      | Some t =>
          Some (outcome (createSession (t_sessionId t) (t_phoneNumber t) setup
                           (with_timers (delete i) w)))
      | None => None
      end
  | WsConnect sid =>
      let ws := length (chans w) in
      Some (outcome (wss_on_connection ws sid
                       (with_chans (λ l, l ++ [mkChan None OPEN]) w)))
  | WsClosing c =>
      match chans w !! c with
      | Some ch =>
          if decide (ch_readyState ch = OPEN) then Some (set_readyState c CLOSING w, [])
          else None
      | None => None
      end
  | WsClosed c =>
      match chans w !! c with
      | Some ch =>
          if decide (ch_readyState ch = CLOSED) then None
          else
            match ch_sessionId ch with
            | Some sid => Some (outcome (ws_on_close sid c (set_readyState c CLOSED w)))
            | None => Some (set_readyState c CLOSED w, [])
            end
      | None => None
      end
  end.

Fixpoint run (w : World) (inputs : list input) : option World :=
  match inputs with
  | [] => Some w
  | i :: rest =>
      match exec w i with
      | Some (w', _) => run w' rest
      | None => None
      end
  end.

Definition reachable (w : World) : Prop := ∃ inputs, run init inputs = Some w.

(** Handles bound to [sessionId] that the transport has not reported closed. *)
Definition is_live_for (sessionId : string) (w : World) (h : handle) : bool :=
  match socks w !! h with
  | Some s => sk_live s && bool_decide (sk_sessionId s = sessionId)
  | None => false
  end.

Definition live_handles (sessionId : string) (w : World) : list handle :=
  filter (λ h, is_live_for sessionId w h = true) (seq 0 (length (socks w))).

(** The handle the registry holds for [sessionId]. *)
Definition registered_handle (sessionId : string) (w : World) : option handle :=
  match sessions w !! sessionId with
  | Some s => sock s
  | None => None
  end.

(** * Vocabulary of the statements *)

Definition is_open (w : World) (c : chan) : Prop := readyState c w = OPEN.

#[global] Instance is_open_dec w c : Decision (is_open w c).
Proof. unfold is_open. apply _. Defined.

(** The sends one [broadcast] performs. *)
Definition deliveries (sessionId : string) (data : wsEvent) (w : World) : list call :=
  (λ c, WsSend c data) <$> filter (is_open w) (subscribers sessionId w).

(** The state after a [createSession] whose set-up succeeded. *)
Definition created (sessionId phoneNumber : string) (w : World) : World :=
  with_sessions
    <[sessionId := mkSession (Some (length (socks w))) (Some phoneNumber) "connecting"]>
    (with_socks (λ l, l ++ [mkSock sessionId phoneNumber true]) w).

Definition qr_calls (sessionId : string) (u : ConnectionUpdate) (w : World) : list call :=
  if JsString.falsy (qr u) then []
  else deliveries sessionId (EvQr (default "" (qr u))) w.

Definition is_push (x : call) : bool :=
  match x with
  | WsSend _ _ => true
  | _ => false
  end.

Definition is_reply (x : call) : bool :=
  match x with
  | SockSendMessage _ _ _ => true
  | _ => false
  end.

(** The subscriber sends, respectively the transport replies, among a log. *)
Definition pushes (t : list call) : list call := filter (λ x, is_push x = true) t.
Definition replies (t : list call) : list call := filter (λ x, is_reply x = true) t.

(** The message is neither the account's own nor without text. *)
Definition eligible (msg : WAMessage) : bool :=
  negb (fromMe (key msg)) && negb (JsString.falsy (Some (extract_text msg))).

Definition is_command (msg : WAMessage) : bool :=
  JsString.startsWith "/" (extract_text msg).

Definition message_event (msg : WAMessage) (o : MsgOracle) : wsEvent :=
  EvMessage (remoteJid (key msg)) (extract_text msg) (now o).

Definition ack_call (sock : handle) (msg : WAMessage) : call :=
  SockSendMessage sock (remoteJid (key msg)) (ack_text (extract_text msg)).

Definition ack_completion (o : MsgOracle) : completion unit :=
  match ack o with
  | None => Normal tt
  | Some e => Thrown e
  end.

(** A message whose reply resolves, or that sends none, lets the loop go on. *)
Definition completes (msg : WAMessage) (o : MsgOracle) : Prop :=
  eligible msg = true → is_command msg = true → ack o = None.

(** The part of [s] before its first whitespace character. *)
Fixpoint first_whitespace_token (s : string) : string :=
  match s with
  | EmptyString => EmptyString
  | String c r =>
      if JsString.is_whitespace c then EmptyString
      else String c (first_whitespace_token r)
  end.

(** The command as the specification words it: the first
    whitespace-delimited token after the sigil, lowercased. *)
Definition claimed_command (text : string) : string :=
  toLowerCase (first_whitespace_token (JsString.slice1 text)).

(** Every whitespace character of [s] is a space. *)
Fixpoint spaces_only (s : string) : bool :=
  match s with
  | EmptyString => true
  | String c r =>
      (negb (JsString.is_whitespace c) || Ascii.eqb c " ") && spaces_only r
  end.

(** A text whose command is followed by a tab. *)
Definition tabbed_text : string := String.append "/Status" (String "009" "now").

Fixpoint digits_only (s : string) : bool :=
  match s with
  | EmptyString => true
  | String c r => JsString.is_digit c && digits_only r
  end.

(** A session connected through handle 0, as reached by a pairing request
    followed by the handle's open event. *)
Definition connected_world : World :=
  with_sessions <["s1" := mkSession (Some 0%nat) (Some "15551234567") "connected"]>
    (created "s1" "15551234567" init).

Inductive registry_change (w : World) : World → Prop :=
| rc_same : registry_change w w
| rc_created sid phone : registry_change w (created sid phone w)
| rc_deleted sid : registry_change w (with_sessions (delete sid) w)
| rc_connected sid :
    registry_change w
      (with_sessions <[sid := spread_status (sessions w !! sid) "connected"]> w)
| rc_timer t : registry_change w (with_timers (λ l, l ++ [t]) w).

(** What the handlers of handle [h] close over. *)
Definition closure_of (h : handle) (w : World) : option (string * string) :=
  (λ k, (sk_sessionId k, sk_phoneNumber k)) <$> socks w !! h.

(** Every handle held by the registry was created for the id it is held
    under, with the phone number recorded next to it. *)
Definition bound (w : World) : Prop :=
  ∀ sid s h, sessions w !! sid = Some s → sock s = Some h →
    ∃ phone, closure_of h w = Some (sid, phone) ∧ phoneNumber s = Some phone.

(** A change that leaves the registry, the subscriber lists and every
    closure as they are. *)
Definition quiet (w w1 : World) : Prop :=
  sessions w1 = sessions w ∧ wsClients w1 = wsClients w ∧
  ∀ h, closure_of h w1 = closure_of h w.

Definition is_ws_input (i : input) : Prop :=
  match i with
  | WsConnect _ | WsClosing _ | WsClosed _ => True
  | _ => False
  end.

(** The state after two successful pairing requests for the same id. *)
Definition twice_paired : World :=
  created "s1" "15551234567" (created "s1" "15551234567" init).

(** The state after the first of two handles of one id has reported a
    logged-out close: the entry is gone, the second handle is live. *)
Definition superseded_logged_out : World :=
  with_sessions (delete "s1") (mark_closed 0%nat twice_paired).

(** ** The shapes of one callback's effect on the state *)

(** Every way a single callback of the loop can change the state. *)
Inductive transition (w : World) : World → Prop :=
| tr_same : transition w w
| tr_paired sid phone :
    transition w (created sid (JsString.replace_non_digits phone) w)
| tr_deleted sid : transition w (with_sessions (delete sid) w)
| tr_opened h k :
    socks w !! h = Some k → sk_live k = true →
    transition w
      (with_sessions
         <[sk_sessionId k := spread_status (sessions w !! sk_sessionId k) "connected"]> w)
| tr_logged_out h k :
    socks w !! h = Some k → sk_live k = true →
    transition w (with_sessions (delete (sk_sessionId k)) (mark_closed h w))
| tr_reconnect h k :
    socks w !! h = Some k → sk_live k = true →
    transition w
      (with_timers (λ l, l ++ [mkTimer 5000 (sk_sessionId k) (sk_phoneNumber k)])
         (mark_closed h w))
| tr_timer_ok i t :
    timers w !! i = Some t →
    transition w (created (t_sessionId t) (t_phoneNumber t) (with_timers (delete i) w))
| tr_timer_failed i t :
    timers w !! i = Some t → transition w (with_timers (delete i) w)
| tr_rejected :
    transition w
      (set_readyState (length (chans w)) CLOSING
         (with_chans (λ l, l ++ [mkChan None OPEN]) w))
| tr_subscribed sid :
    sid ≠ "" →
    transition w
      (with_chans (alter (λ c, mkChan (Some sid) (ch_readyState c)) (length (chans w)))
         (with_wsClients <[sid := subscribers sid w ++ [length (chans w)]]>
            (with_chans (λ l, l ++ [mkChan None OPEN]) w)))
| tr_closing c ch :
    chans w !! c = Some ch → ch_readyState ch = OPEN →
    transition w (set_readyState c CLOSING w)
| tr_closed c ch sid :
    chans w !! c = Some ch → ch_readyState ch ≠ CLOSED → ch_sessionId ch = Some sid →
    transition w
      (with_wsClients <[sid := filter (λ c', c' ≠ c) (subscribers sid w)]>
         (set_readyState c CLOSED w))
| tr_closed_unbound c ch :
    chans w !! c = Some ch → ch_readyState ch ≠ CLOSED → ch_sessionId ch = None →
    transition w (set_readyState c CLOSED w).

(** ** Invariants of the reachable states *)

(** The registry stores no status but the two literals of lines 52 and 62. *)
Definition statuses_stored (w : World) : Prop :=
  ∀ sid s, sessions w !! sid = Some s →
    status s = "connecting" ∨ status s = "connected".

(** Every phone number kept by a handle's handlers, by a pending timer or
    by a registry entry consists of digits. *)
Definition phones_digits (w : World) : Prop :=
  (∀ h k, socks w !! h = Some k → digits_only (sk_phoneNumber k) = true) ∧
  (∀ t, t ∈ timers w → digits_only (t_phoneNumber t) = true) ∧
  (∀ sid s p, sessions w !! sid = Some s → phoneNumber s = Some p →
     digits_only p = true).

(** Every pending timer waits 5000 ms and was scheduled for a handle that
    the transport has reported closed. *)
Definition timers_of_closed (w : World) : Prop :=
  ∀ t, t ∈ timers w →
    t_delay t = 5000 ∧
    ∃ h k, socks w !! h = Some k ∧ sk_live k = false ∧
           sk_sessionId k = t_sessionId t ∧ sk_phoneNumber k = t_phoneNumber t.

(** Subscriber lists hold no channel twice, and only channels that are
    not closed and whose close handler is bound to the list's id. *)
Definition subscribers_wf (w : World) : Prop :=
  ∀ sid,
    NoDup (subscribers sid w) ∧
    ∀ c, c ∈ subscribers sid w →
      ∃ ch, chans w !! c = Some ch ∧ ch_sessionId ch = Some sid ∧
            ch_readyState ch ≠ CLOSED.

(** ** Sample runs *)

(** A pairing request for ["s1"] followed by the open event of its handle. *)
Definition connect_s1 : list input :=
  [HttpPair (Some "s1") (Some "15551234567") (mkPairOracle None (inl "ABCD1234"));
   SockConnectionUpdate 0%nat (mkUpdate (Some "open") None None)].

(** The same, then a close for a lost connection: a timer is pending. *)
Definition lose_s1 : list input :=
  connect_s1 ++ [SockConnectionUpdate 0%nat (mkUpdate (Some "close") (Some 428) None)].

(** The state in which the connection of ["s1"] was lost. *)
Definition lost_world : World :=
  with_timers (λ l, l ++ [mkTimer 5000 "s1" "15551234567"])
    (mark_closed 0%nat connected_world).

(** The state after a push channel has connected for [sid]: the channel,
    numbered [length (chans w)], is open, bound to [sid], and last in the
    subscriber list of [sid]. *)
Definition subscribed (sid : string) (w : World) : World :=
  with_chans (alter (λ c, mkChan (Some sid) (ch_readyState c)) (length (chans w)))
    (with_wsClients <[sid := subscribers sid w ++ [length (chans w)]]>
       (with_chans (λ l, l ++ [mkChan None OPEN]) w)).

(** What a channel that connects for [sid] is sent at once. *)
Definition snapshot (sid : string) (w : World) : list call :=
  match sessions w !! sid with
  | Some s => [WsSend (length (chans w)) (EvConnection (status s))]
  | None => []
  end.

(** The calls of a batch whose loop runs to its end: those of each message
    in turn, [o i] being the environment of the message at position [i]. *)
Fixpoint batch_calls (sessionId : string) (sock : handle) (messages : list WAMessage)
    (o : nat → MsgOracle) (i : nat) (w : World) : list call :=
  match messages with
  | [] => []
  | msg :: rest =>
      calls_of (process_message sessionId sock msg (o i) w)
      ++ batch_calls sessionId sock rest o (S i) w
  end.


(** ** Rejections that nothing handles *)

Definition thrown {A} (r : completion A * World * list call) : option string :=
  match result_of r with
  | Thrown e => Some e
  | Normal _ => None
  end.

(** The error with which the promise of a callback is rejected while the
    code attaches no handler to it: the timer callback of line 72 drops the
    promise of [createSession], and the emitter drops the promises of the
    [async] handlers of lines 54 and 82.  The pair and send routes catch
    what they throw, the promise of the disconnect route goes to the
    framework, and the other callbacks are synchronous. *)
Definition unhandled_rejection (w : World) (i : input) : option string :=
  match i with
  | SockConnectionUpdate h u =>
      match socks w !! h with
      | Some s =>
          if sk_live s then
            let w1 := if decide (connection u = Some "close") then mark_closed h w else w in
            thrown (on_connection_update (sk_sessionId s) (sk_phoneNumber s) u w1)
          else None
      | None => None
      end
  | SockMessagesUpsert h msgs type o =>
      match socks w !! h with
      | Some s =>
          if sk_live s then
            thrown (on_messages_upsert (sk_sessionId s) h msgs type o w)
          else None
      | None => None
      end
  | TimerFire i setup =>
      match timers w !! i with
      | Some t =>
          thrown (createSession (t_sessionId t) (t_phoneNumber t) setup
                    (with_timers (delete i) w))
      | None => None
      end
  | _ => None
  end.

(** * Properties *)

(** ** Running monadic code *)

Lemma bind_normal {A B} (m : M A) (f : A -> M B) w a w1 t1 :
  m w = (Normal a, w1, t1) ->
  (m ≫= f) w = (result_of (f a w1), world_of (f a w1), t1 ++ calls_of (f a w1)).
Proof.
  intros Hm. unfold mbind, M_bind, bind. rewrite Hm.
  destruct (f a w1) as [[r w2] t2]. reflexivity.
Qed.

Lemma bind_thrown {A B} (m : M A) (f : A -> M B) w e w1 t1 :
  m w = (Thrown e, w1, t1) -> (m ≫= f) w = (Thrown e, w1, t1).
Proof. intros Hm. unfold mbind, M_bind, bind. rewrite Hm. reflexivity. Qed.

Lemma triple_eta {A} (r : completion A * World * list call) :
  r = (result_of r, world_of r, calls_of r).
Proof. destruct r as [[? ?] ?]. reflexivity. Qed.

Ltac unfold_m :=
  unfold mbind, M_bind, bind, mret, M_ret, ret, gets, modify, emit, throw, await,
    try_catch, result_of, world_of, calls_of, outcome in *.

(** ** Broadcaster *)

Lemma forEach_send_run (clients : list chan) (data : wsEvent) (w : World) :
  forEach clients (λ ws,
      rs ← gets (readyState ws);
      if decide (rs = OPEN) then emit (WsSend ws data) else ret tt) w
  = (Normal tt, w, (λ c, WsSend c data) <$> filter (is_open w) clients).
Proof.
  induction clients as [|c rest IH]; [reflexivity|].
  cbn [forEach]. rewrite filter_cons.
  set (f := λ ws : chan, _) in *.
  assert (Hc : f c w = (Normal tt, w,
                        if decide (is_open w c) then [WsSend c data] else [])).
  { subst f. cbv beta. unfold is_open.
    unfold mbind, M_bind, bind, gets.
    destruct (decide (readyState c w = OPEN)); reflexivity. }
  rewrite (bind_normal _ _ _ _ _ _ Hc), IH.
  unfold result_of, world_of, calls_of. cbn [fst snd].
  destruct (decide (is_open w c)); reflexivity.
Qed.

Lemma broadcast_run (sessionId : string) (data : wsEvent) (w : World) :
  broadcast sessionId data w = (Normal tt, w, deliveries sessionId data w).
Proof.
  unfold broadcast.
  rewrite (bind_normal _ _ w (subscribers sessionId w) w [] eq_refl).
  rewrite forEach_send_run. reflexivity.
Qed.


(** C4. [broadcast] sends the event to exactly the subscribers of the
    session whose [readyState] is [OPEN], in list order, skips every other
    subscriber, completes normally, and does nothing when the session has
    no subscriber list or an empty one. *)
Theorem broadcast_delivers_to_open_channels
    (sessionId : string) (data : wsEvent) (w : World) :
  let r := broadcast sessionId data w in
  result_of r = Normal tt ∧
  calls_of r = (λ c, WsSend c data) <$> filter (is_open w) (subscribers sessionId w) ∧
  (∀ c, WsSend c data ∈ calls_of r ↔
        c ∈ subscribers sessionId w ∧ readyState c w = OPEN) ∧
  (∀ x, x ∈ calls_of r → ∃ c, x = WsSend c data) ∧
  (wsClients w !! sessionId = None ∨ wsClients w !! sessionId = Some [] →
   r = (Normal tt, w, [])).
Proof.
  cbv zeta. rewrite broadcast_run. unfold result_of, calls_of, deliveries. cbn [fst snd].
  split; [reflexivity|]. split; [reflexivity|]. split; [|split].
  - intros c. rewrite list_elem_of_fmap. split.
    + intros (c' & Heq & Hin). inversion Heq; subst c'.
      apply list_elem_of_filter in Hin. unfold is_open in Hin. tauto.
    + intros [Hin Ho]. exists c. split; [reflexivity|].
      apply list_elem_of_filter. split; assumption.
  - intros x Hx. apply list_elem_of_fmap in Hx as (c & -> & _). eauto.
  - intros Hnone. unfold subscribers.
    destruct Hnone as [-> | ->]; reflexivity.
Qed.

(** ** Session creation *)

Lemma createSession_run_ok (sessionId phoneNumber : string) (w : World) :
  createSession sessionId phoneNumber None w
  = (Normal (length (socks w)), created sessionId phoneNumber w,
     [MakeWASocket (length (socks w))]).
Proof. reflexivity. Qed.

Lemma createSession_run_fail (sessionId phoneNumber e : string) (w : World) :
  createSession sessionId phoneNumber (Some e) w = (Thrown e, w, []).
Proof. reflexivity. Qed.

(** ** connection.update *)

Lemma on_connection_update_open (sessionId phoneNumber : string) (u : ConnectionUpdate) (w : World) :
  connection u = Some "open" ->
  on_connection_update sessionId phoneNumber u w
  = (Normal tt,
     with_sessions <[sessionId := spread_status (sessions w !! sessionId) "connected"]> w,
     qr_calls sessionId u w ++ deliveries sessionId (EvConnection "connected") w).
Proof.
  intros Ho. unfold on_connection_update, qr_calls. rewrite Ho.
  destruct (decide (Some "open" = Some "open")) as [_|]; [|congruence].
  destruct (decide (Some "open" = Some "close")) as [|_]; [congruence|].
  destruct (JsString.falsy (qr u)).
  - unfold_m. cbn. rewrite broadcast_run. cbn.
    rewrite app_nil_r. reflexivity.
  - unfold_m. rewrite broadcast_run. cbn. rewrite broadcast_run. cbn.
    rewrite !app_nil_r. reflexivity.
Qed.

Lemma on_connection_update_logged_out (sessionId phoneNumber : string) (u : ConnectionUpdate) (w : World) :
  connection u = Some "close" -> statusCode u = Some loggedOut ->
  on_connection_update sessionId phoneNumber u w
  = (Normal tt, with_sessions (delete sessionId) w,
     qr_calls sessionId u w ++ deliveries sessionId (EvConnection "logged_out") w).
Proof.
  intros Hc Hs. unfold on_connection_update, qr_calls. rewrite Hc, Hs.
  destruct (decide (Some "close" = Some "open")) as [|_]; [congruence|].
  destruct (decide (Some "close" = Some "close")) as [_|]; [|congruence].
  rewrite bool_decide_eq_false_2 by (intros H; apply H; reflexivity).
  destruct (JsString.falsy (qr u)).
  - unfold_m. cbn. rewrite broadcast_run. reflexivity.
  - unfold_m. rewrite broadcast_run. cbn. rewrite broadcast_run. cbn.
    reflexivity.
Qed.

Lemma on_connection_update_reconnect (sessionId phoneNumber : string) (u : ConnectionUpdate) (w : World) :
  connection u = Some "close" -> statusCode u ≠ Some loggedOut ->
  on_connection_update sessionId phoneNumber u w
  = (Normal tt, with_timers (λ l, l ++ [mkTimer 5000 sessionId phoneNumber]) w,
     qr_calls sessionId u w).
Proof.
  intros Hc Hs. unfold on_connection_update, qr_calls. rewrite Hc.
  destruct (decide (Some "close" = Some "open")) as [|_]; [congruence|].
  destruct (decide (Some "close" = Some "close")) as [_|]; [|congruence].
  rewrite bool_decide_eq_true_2 by assumption.
  destruct (JsString.falsy (qr u)).
  - reflexivity.
  - unfold_m. rewrite broadcast_run. cbn. rewrite app_nil_r. reflexivity.
Qed.

Lemma on_connection_update_other (sessionId phoneNumber : string) (u : ConnectionUpdate) (w : World) :
  connection u ≠ Some "open" -> connection u ≠ Some "close" ->
  on_connection_update sessionId phoneNumber u w = (Normal tt, w, qr_calls sessionId u w).
Proof.
  intros Ho Hc. unfold on_connection_update, qr_calls.
  destruct (decide (connection u = Some "open")) as [|_]; [congruence|].
  destruct (decide (connection u = Some "close")) as [|_]; [congruence|].
  destruct (JsString.falsy (qr u)).
  - reflexivity.
  - unfold_m. rewrite broadcast_run. cbn. rewrite app_nil_r. reflexivity.
Qed.



(** ** messages.upsert *)

Lemma pushes_deliveries sessionId data w :
  pushes (deliveries sessionId data w) = deliveries sessionId data w.
Proof.
  unfold pushes, deliveries.
  induction (filter (is_open w) (subscribers sessionId w)) as [|c l IH]; [reflexivity|].
  cbn [fmap list_fmap]. rewrite filter_cons_True by reflexivity.
  f_equal. exact IH.
Qed.

Lemma replies_deliveries sessionId data w :
  replies (deliveries sessionId data w) = [].
Proof.
  unfold replies, deliveries.
  induction (filter (is_open w) (subscribers sessionId w)) as [|c l IH]; [reflexivity|].
  cbn [fmap list_fmap]. rewrite filter_cons_False by (cbn; discriminate).
  exact IH.
Qed.

Lemma process_message_run sessionId sock msg o w :
  process_message sessionId sock msg o w
  = if eligible msg then
      if is_command msg then
        (ack_completion o, w,
         deliveries sessionId (message_event msg o) w ++ [ack_call sock msg])
      else (Normal tt, w, deliveries sessionId (message_event msg o) w)
    else (Normal tt, w, []).
Proof.
  unfold process_message, eligible, is_command, message_event, ack_call, ack_completion.
  destruct (fromMe (key msg)); [reflexivity|].
  cbn [negb andb].
  destruct (JsString.falsy (Some (extract_text msg))); [reflexivity|].
  cbn [negb].
  destruct (JsString.startsWith "/" (extract_text msg)).
  - unfold_m. rewrite broadcast_run. unfold sock_sendMessage. unfold_m.
    destruct (ack o); cbn; reflexivity.
  - unfold_m. rewrite broadcast_run. cbn. rewrite app_nil_r. reflexivity.
Qed.

Lemma process_message_world sessionId sock msg o w :
  world_of (process_message sessionId sock msg o w) = w.
Proof.
  rewrite process_message_run.
  destruct (eligible msg), (is_command msg); reflexivity.
Qed.

Lemma eligible_spec msg :
  eligible msg = true ↔ fromMe (key msg) = false ∧ extract_text msg ≠ "".
Proof.
  unfold eligible.
  destruct (fromMe (key msg)), (extract_text msg); cbn; intuition congruence.
Qed.

Lemma process_message_completes sessionId sock msg o w :
  completes msg o →
  result_of (process_message sessionId sock msg o w) = Normal tt.
Proof.
  intros Hc. rewrite process_message_run. unfold completes, ack_completion in *.
  destruct (eligible msg); [|reflexivity].
  destruct (is_command msg); [|reflexivity].
  rewrite Hc by reflexivity. reflexivity.
Qed.

Lemma for_of_world sessionId sock msgs o i w :
  world_of (for_of sessionId sock msgs o i w) = w.
Proof.
  revert i. induction msgs as [|msg rest IH]; intros i; [reflexivity|].
  cbn [for_of].
  pose proof (process_message_world sessionId sock msg (o i) w) as Hw.
  destruct (process_message sessionId sock msg (o i) w) as [[[[]|e] w1] t1] eqn:Hp;
    unfold world_of in Hw; cbn in Hw; subst w1.
  - rewrite (bind_normal _ _ _ _ _ _ Hp). apply IH.
  - rewrite (bind_thrown _ _ _ _ _ _ Hp). reflexivity.
Qed.

Lemma for_of_cons sessionId sock msg rest o i w :
  for_of sessionId sock (msg :: rest) o i w
  = match result_of (process_message sessionId sock msg (o i) w) with
    | Normal _ =>
        (result_of (for_of sessionId sock rest o (S i) w), w,
         calls_of (process_message sessionId sock msg (o i) w)
         ++ calls_of (for_of sessionId sock rest o (S i) w))
    | Thrown e =>
        (Thrown e, w, calls_of (process_message sessionId sock msg (o i) w))
    end.
Proof.
  cbn [for_of].
  pose proof (process_message_world sessionId sock msg (o i) w) as Hw.
  destruct (process_message sessionId sock msg (o i) w) as [[[[]|e] w1] t1] eqn:Hp;
    unfold world_of in Hw; cbn in Hw; subst w1.
  - rewrite (bind_normal _ _ _ _ _ _ Hp), for_of_world. reflexivity.
  - rewrite (bind_thrown _ _ _ _ _ _ Hp). reflexivity.
Qed.

(** Messages before position [length pre] that let the loop go on do not
    keep the loop from the message at that position. *)
Lemma for_of_reaches sessionId sock pre msg post o i w :
  (∀ j m, pre !! j = Some m → completes m (o (i + j)%nat)) →
  for_of sessionId sock (pre ++ msg :: post) o i w
  = (result_of (for_of sessionId sock (msg :: post) o (i + length pre) w), w,
     calls_of (for_of sessionId sock pre o i w)
     ++ calls_of (for_of sessionId sock (msg :: post) o (i + length pre) w)).
Proof.
  revert i. induction pre as [|m pre IH]; intros i Hpre.
  - cbn [app length]. rewrite Nat.add_0_r.
    rewrite (triple_eta (for_of _ _ (msg :: post) _ _ _)) at 1.
    rewrite for_of_world. reflexivity.
  - change ((m :: pre) ++ msg :: post) with (m :: (pre ++ msg :: post)).
    rewrite !(for_of_cons _ _ m).
    assert (Hm : result_of (process_message sessionId sock m (o i) w) = Normal tt).
    { apply process_message_completes. specialize (Hpre 0%nat m eq_refl).
      rewrite Nat.add_0_r in Hpre. exact Hpre. }
    rewrite Hm. rewrite IH.
    + cbn [length]. rewrite Nat.add_succ_r. cbn [Nat.add].
      unfold result_of, world_of, calls_of. cbn [fst snd].
      rewrite app_assoc. reflexivity.
    + intros j m' Hj. specialize (Hpre (S j) m' Hj).
      rewrite Nat.add_succ_r in Hpre. exact Hpre.
Qed.

Lemma pushes_app t1 t2 : pushes (t1 ++ t2) = pushes t1 ++ pushes t2.
Proof. apply filter_app. Qed.

Lemma replies_app t1 t2 : replies (t1 ++ t2) = replies t1 ++ replies t2.
Proof. apply filter_app. Qed.


Lemma pushes_process_message sessionId sock msg o w :
  pushes (calls_of (process_message sessionId sock msg o w))
  = if eligible msg then deliveries sessionId (message_event msg o) w else [].
Proof.
  rewrite process_message_run.
  destruct (eligible msg); [|reflexivity].
  destruct (is_command msg); unfold calls_of; cbn [snd].
  - rewrite pushes_app, pushes_deliveries. cbn. apply app_nil_r.
  - apply pushes_deliveries.
Qed.


(** ** Command acknowledgement *)

Lemma split_first_space_token (s : string) :
  spaces_only s = true →
  JsString.split_first " " s = first_whitespace_token s.
Proof.
  induction s as [|c r IH]; [reflexivity|].
  cbn [spaces_only JsString.split_first first_whitespace_token].
  intros H. apply andb_true_iff in H as [Hc Hr].
  destruct (Ascii.eqb c " ") eqn:E.
  - apply Ascii.eqb_eq in E. subst c. reflexivity.
  - rewrite orb_false_r in Hc. apply negb_true_iff in Hc. rewrite Hc.
    f_equal. apply IH. exact Hr.
Qed.

Lemma split_first_no_delimiter (c : ascii) (s : string) :
  JsString.includes c (JsString.split_first c s) = false.
Proof.
  induction s as [|d r IH]; [reflexivity|].
  cbn [JsString.split_first].
  destruct (Ascii.eqb d c) eqn:E; [reflexivity|].
  cbn [JsString.includes]. rewrite E. exact IH.
Qed.

Lemma upsert_reaches sessionId sock pre msg post orc w :
  (∀ j m, pre !! j = Some m → completes m (orc j)) →
  calls_of (on_messages_upsert sessionId sock (pre ++ msg :: post) "notify" orc w)
  = calls_of (on_messages_upsert sessionId sock pre "notify" orc w)
    ++ calls_of (process_message sessionId sock msg (orc (length pre)) w)
    ++ match result_of (process_message sessionId sock msg (orc (length pre)) w) with
       | Normal _ => calls_of (for_of sessionId sock post orc (S (length pre)) w)
       | Thrown _ => []
       end.
Proof.
  intros Hpre. unfold on_messages_upsert.
  destruct (decide ("notify" ≠ "notify")) as [Hne|_]; [contradiction|].
  rewrite for_of_reaches by exact Hpre.
  unfold calls_of at 1. cbn [snd Nat.add]. f_equal.
  rewrite for_of_cons.
  destruct (result_of (process_message sessionId sock msg (orc (length pre)) w));
    unfold calls_of at 1; cbn [snd]; [reflexivity|].
  rewrite app_nil_r. reflexivity.
Qed.

(** C6 (as amended).  For a message from a non-self sender whose text begins
    with the sigil, processing it sends exactly one reply through the
    transport, to the sender, whose command is the text after the sigil up
    to the first space character, lowercased, and performs exactly one
    broadcast of the message event; when every whitespace character after
    the sigil is a space this is the first whitespace-delimited token.  A
    message whose text does not begin with the sigil sends no reply, and a
    batch that is not in notify mode sends nothing. *)
Theorem command_acknowledgement
    (sessionId : string) (sock : handle) (pre post : list WAMessage)
    (msg : WAMessage) (type : string) (orc : nat → MsgOracle) (w : World) :
  let o := orc (length pre) in
  let text := extract_text msg in
  let rm := process_message sessionId sock msg o w in
  let r := on_messages_upsert sessionId sock (pre ++ msg :: post) type orc w in
  fromMe (key msg) = false →
  (JsString.startsWith "/" text = true →
   replies (calls_of rm)
   = [SockSendMessage sock (remoteJid (key msg))
        (String.append "Command received: /"
           (toLowerCase (JsString.split_first " " (JsString.slice1 text))))] ∧
   pushes (calls_of rm)
   = calls_of (broadcast sessionId (EvMessage (remoteJid (key msg)) text (now o)) w) ∧
   JsString.includes " " (JsString.split_first " " (JsString.slice1 text)) = false ∧
   (spaces_only (JsString.slice1 text) = true → command_of text = claimed_command text)) ∧
  (JsString.startsWith "/" text = false → replies (calls_of rm) = []) ∧
  (type ≠ "notify" → calls_of r = []) ∧
  (type = "notify" →
   (∀ j m, pre !! j = Some m → completes m (orc j)) →
   replies (calls_of r)
   = replies (calls_of (on_messages_upsert sessionId sock pre type orc w))
     ++ replies (calls_of rm)
     ++ match result_of rm with
        | Normal _ =>
            replies (calls_of (for_of sessionId sock post orc (S (length pre)) w))
        | Thrown _ => []
        end).
Proof.
  cbv zeta. intros Hme. split; [|split; [|split]].
  - intros Hs.
    assert (He : eligible msg = true).
    { apply eligible_spec. split; [exact Hme|].
      intros Hempty. rewrite Hempty in Hs. discriminate. }
    rewrite process_message_run, He. unfold is_command. rewrite Hs.
    unfold calls_of. cbn [snd]. rewrite replies_app, pushes_app.
    rewrite replies_deliveries, pushes_deliveries, broadcast_run. cbn [snd].
    split; [reflexivity|]. split; [cbn; apply app_nil_r|].
    split; [apply split_first_no_delimiter|].
    intros Hsp. unfold command_of, claimed_command.
    rewrite split_first_space_token by exact Hsp. reflexivity.
  - intros Hs. rewrite process_message_run. unfold is_command. rewrite Hs.
    destruct (eligible msg); unfold calls_of; cbn [snd]; [|reflexivity].
    apply replies_deliveries.
  - intros Ht. unfold on_messages_upsert.
    destruct (decide (type ≠ "notify")); [reflexivity|contradiction].
  - intros -> Hpre. rewrite upsert_reaches by exact Hpre.
    rewrite !replies_app.
    destruct (result_of (process_message sessionId sock msg (orc (length pre)) w));
      reflexivity.
Qed.

(** C9.  A command whose reply is rejected ends the whole handler with that
    error: the reply is attempted once, and no later message of the batch is
    looked at, whatever the batch holds after it. *)
Theorem failed_ack_abandons_batch
    (sessionId : string) (sock : handle) (msg : WAMessage) (rest : list WAMessage)
    (orc : nat → MsgOracle) (w : World) (e : string) :
  eligible msg = true → is_command msg = true → ack (orc 0%nat) = Some e →
  on_messages_upsert sessionId sock (msg :: rest) "notify" orc w
  = (Thrown e, w,
     calls_of (broadcast sessionId (message_event msg (orc 0%nat)) w)
     ++ [ack_call sock msg]).
Proof.
  intros He Hc Ha. unfold on_messages_upsert.
  destruct (decide ("notify" ≠ "notify")) as [Hne|_]; [contradiction|].
  rewrite for_of_cons, process_message_run, He, Hc, broadcast_run.
  unfold ack_completion, result_of, calls_of. rewrite Ha. reflexivity.
Qed.

(** C5.  A message of a notify batch does not always have its event
    broadcast: when the reply to a command is rejected the handler is left
    with that error, and the subscriber sends of the whole batch are those
    of that command's one broadcast; the messages after it, eligible or
    not, have none. *)
Theorem rejected_reply_silences_later_messages
    (sessionId : string) (sock : handle) (msg : WAMessage) (rest : list WAMessage)
    (orc : nat → MsgOracle) (w : World) (e : string) :
  eligible msg = true → is_command msg = true → ack (orc 0%nat) = Some e →
  result_of (on_messages_upsert sessionId sock (msg :: rest) "notify" orc w) = Thrown e ∧
  pushes (calls_of (on_messages_upsert sessionId sock (msg :: rest) "notify" orc w))
  = calls_of (broadcast sessionId (message_event msg (orc 0%nat)) w).
Proof.
  intros He Hc Ha. unfold on_messages_upsert.
  destruct (decide ("notify" ≠ "notify")) as [Hne|_]; [contradiction|].
  rewrite for_of_cons, process_message_run, He, Hc, broadcast_run.
  unfold ack_completion, result_of, calls_of. rewrite Ha. cbn [fst snd].
  split; [reflexivity|].
  rewrite pushes_app, pushes_deliveries. cbn. apply app_nil_r.
Qed.

(** ** Pairing *)

Lemma replace_non_digits_digits_only (s : string) :
  digits_only (JsString.replace_non_digits s) = true.
Proof.
  induction s as [|c r IH]; [reflexivity|].
  cbn [JsString.replace_non_digits].
  destruct (JsString.is_digit c) eqn:E; [|exact IH].
  cbn [digits_only]. rewrite E, IH. reflexivity.
Qed.

Lemma replace_non_digits_keeps_digits (s : string) :
  digits_only s = true → JsString.replace_non_digits s = s.
Proof.
  induction s as [|c r IH]; [reflexivity|].
  cbn [digits_only JsString.replace_non_digits].
  intros H. apply andb_true_iff in H as [Hc Hr].
  rewrite Hc, IH by exact Hr. reflexivity.
Qed.

Lemma api_pair_run_missing sessionId phoneNumber o w :
  JsString.falsy sessionId || JsString.falsy phoneNumber = true →
  api_pair sessionId phoneNumber o w
  = (Normal (mkResponse 400 (ErrorBody "sessionId and phoneNumber required")), w, []).
Proof. intros H. unfold api_pair. rewrite H. reflexivity. Qed.

Lemma api_pair_run sessionId phoneNumber o w :
  JsString.falsy sessionId || JsString.falsy phoneNumber = false →
  let sid := default "" sessionId in
  let clean := JsString.replace_non_digits (default "" phoneNumber) in
  let h := length (socks w) in
  api_pair sessionId phoneNumber o w
  = match setup_outcome o, pairing_outcome o with
    | Some e, _ => (Normal (mkResponse 500 (ErrorBody e)), w, [])
    | None, inl code =>
        (Normal (mkResponse 200 (PairBody code pair_message)), created sid clean w,
         [MakeWASocket h; Delay 2000; SockRequestPairingCode h clean])
    | None, inr e =>
        (Normal (mkResponse 500 (ErrorBody e)), created sid clean w,
         [MakeWASocket h; Delay 2000; SockRequestPairingCode h clean])
    end.
Proof.
  intros H. cbv zeta. unfold api_pair. rewrite H.
  destruct (setup_outcome o) as [e|] eqn:Hs.
  - unfold try_catch.
    rewrite (bind_thrown _ _ w e w [] (createSession_run_fail _ _ e w)). reflexivity.
  - unfold try_catch.
    rewrite (bind_normal _ _ _ _ _ _ (createSession_run_ok _ _ w)).
    unfold_m. cbn [fst snd created with_sessions sessions].
    rewrite lookup_insert_eq. cbn [sock]. unfold sock_requestPairingCode. unfold_m.
    destruct (pairing_outcome o); reflexivity.
Qed.

(** C7.  [POST /api/pair]: with [sessionId] or [phoneNumber] missing the
    answer is 400 and nothing changes; otherwise the phone number is reduced
    to its digits, the session is created under the id (replacing the
    registry entry), the handler waits 2000 ms, asks the new handle once for
    a pairing code for the digits and returns it; an error of the set-up or
    of the code request is answered with 500 carrying its message, each call
    having been made at most once. *)
Theorem pairing_flow
    (sessionId phoneNumber : option string) (o : PairOracle) (w : World) :
  let r := api_pair sessionId phoneNumber o w in
  (JsString.falsy sessionId = true ∨ JsString.falsy phoneNumber = true →
   r = (Normal (mkResponse 400 (ErrorBody "sessionId and phoneNumber required")), w, [])) ∧
  (∀ sid phone,
     sessionId = Some sid → phoneNumber = Some phone → sid ≠ "" → phone ≠ "" →
     let clean := JsString.replace_non_digits phone in
     let h := length (socks w) in
     digits_only clean = true ∧
     (digits_only phone = true → clean = phone) ∧
     sessions (created sid clean w) !! sid
     = Some (mkSession (Some h) (Some clean) "connecting") ∧
     (∀ code, setup_outcome o = None → pairing_outcome o = inl code →
        r = (Normal (mkResponse 200 (PairBody code pair_message)), created sid clean w,
             [MakeWASocket h; Delay 2000; SockRequestPairingCode h clean])) ∧
     (∀ e, setup_outcome o = None → pairing_outcome o = inr e →
        r = (Normal (mkResponse 500 (ErrorBody e)), created sid clean w,
             [MakeWASocket h; Delay 2000; SockRequestPairingCode h clean])) ∧
     (∀ e, setup_outcome o = Some e →
        r = (Normal (mkResponse 500 (ErrorBody e)), w, []))).
Proof.
  cbv zeta. split.
  - intros H. apply api_pair_run_missing. apply orb_true_iff. exact H.
  - intros sid phone -> -> Hsid Hphone.
    assert (Hf : JsString.falsy (Some sid) || JsString.falsy (Some phone) = false).
    { destruct sid, phone; try contradiction; reflexivity. }
    pose proof (api_pair_run (Some sid) (Some phone) o w Hf) as Hrun.
    cbv zeta in Hrun. cbn [default] in Hrun.
    split; [apply replace_non_digits_digits_only|].
    split; [apply replace_non_digits_keeps_digits|].
    split; [unfold created; cbn [with_sessions sessions]; apply lookup_insert_eq|].
    split; [|split].
    + intros code Hs Hp. rewrite Hrun, Hs, Hp. reflexivity.
    + intros e Hs Hp. rewrite Hrun, Hs, Hp. reflexivity.
    + intros e Hs. rewrite Hrun, Hs. reflexivity.
Qed.

(** ** Sending *)

Lemma api_send_run_not_connected sessionId to message outcome w :
  match sessions_get sessionId w with
  | Some s => status s ≠ "connected"
  | None => True
  end →
  api_send sessionId to message outcome w
  = (Normal (mkResponse 400 (ErrorBody "Session not connected")), w, []).
Proof.
  intros H. unfold api_send. unfold_m.
  destruct (sessions_get sessionId w) as [s|]; [|reflexivity].
  destruct (decide (status s ≠ "connected")); [reflexivity|contradiction].
Qed.

Lemma api_send_run_connected sessionId to message outcome w s h :
  sessions_get sessionId w = Some s → status s = "connected" → sock s = Some h →
  api_send sessionId (Some to) message outcome w
  = (Normal (match outcome with
             | None => mkResponse 200 SuccessBody
             | Some e => mkResponse 500 (ErrorBody e)
             end),
     w, [SockSendMessage h (jid_of to) message]).
Proof.
  intros Hg Hs Hh. unfold api_send. unfold_m. rewrite Hg.
  destruct (decide (status s ≠ "connected")); [contradiction|].
  rewrite Hh. unfold sock_sendMessage. unfold_m.
  destruct outcome; reflexivity.
Qed.

Lemma api_send_world sessionId to message outcome w :
  world_of (api_send sessionId to message outcome w) = w.
Proof.
  unfold api_send. unfold_m.
  destruct (sessions_get sessionId w) as [s|]; [|reflexivity].
  destruct (decide (status s ≠ "connected")); [reflexivity|].
  destruct to as [t|]; [|reflexivity].
  unfold sock_sendMessage. unfold_m.
  destruct (sock s), outcome; reflexivity.
Qed.

(** C8 (as amended).  [POST /api/send] answers 400 and does nothing when the
    session is absent or its status is not [connected]; when it is connected
    and holds a transport handle, that handle receives exactly one
    send-message call, to [to] verbatim if it contains [@] and to [to]
    followed by [@s.whatsapp.net] otherwise, with the given text; the answer
    is [{success: true}] if the call resolves and 500 with the error message
    if it is rejected. *)
Theorem send_route
    (sessionId to : option string) (message : string) (outcome : option string)
    (w : World) :
  let r := api_send sessionId to message outcome w in
  (sessions_get sessionId w = None ∨
   (∃ s, sessions_get sessionId w = Some s ∧ status s ≠ "connected") →
   r = (Normal (mkResponse 400 (ErrorBody "Session not connected")), w, [])) ∧
  (∀ s h t,
     sessions_get sessionId w = Some s → status s = "connected" →
     sock s = Some h → to = Some t →
     calls_of r
     = [SockSendMessage h (if JsString.includes "@" t then t
                           else String.append t "@s.whatsapp.net") message] ∧
     world_of r = w ∧
     (outcome = None → result_of r = Normal (mkResponse 200 SuccessBody)) ∧
     (∀ e, outcome = Some e → result_of r = Normal (mkResponse 500 (ErrorBody e)))).
Proof.
  cbv zeta. split.
  - intros H. apply api_send_run_not_connected.
    destruct H as [-> | (s & -> & Hs)]; [exact I|exact Hs].
  - intros s h t Hg Hs Hh ->.
    rewrite (api_send_run_connected _ _ _ _ _ _ _ Hg Hs Hh).
    unfold result_of, world_of, calls_of, jid_of. cbn [fst snd].
    repeat split.
    + intros ->. reflexivity.
    + intros e ->. reflexivity.
Qed.

(** ** How one callback changes the registry *)

Lemma registry_change_subscribers w w' :
  registry_change w w' → wsClients w' = wsClients w ∧ chans w' = chans w.
Proof. intros []; split; reflexivity. Qed.

Lemma createSession_change sid phone setup w :
  registry_change w (world_of (createSession sid phone setup w)).
Proof. destruct setup; constructor. Qed.

Lemma api_pair_change sessionId phoneNumber o w :
  registry_change w (world_of (api_pair sessionId phoneNumber o w)).
Proof.
  destruct (JsString.falsy sessionId || JsString.falsy phoneNumber) eqn:H.
  - rewrite api_pair_run_missing by exact H. constructor.
  - rewrite api_pair_run by exact H.
    destruct (setup_outcome o), (pairing_outcome o); constructor.
Qed.

Lemma api_disconnect_change sessionId outcome w :
  registry_change w (world_of (api_disconnect sessionId outcome w)).
Proof.
  unfold api_disconnect. unfold_m.
  destruct (sessions w !! sessionId) as [s|]; [|constructor].
  unfold sock_logout. unfold_m.
  destruct (sock s), outcome; constructor.
Qed.

Lemma on_connection_update_change sessionId phoneNumber u w :
  registry_change w (world_of (on_connection_update sessionId phoneNumber u w)).
Proof.
  destruct (decide (connection u = Some "open")) as [Ho|Ho].
  { rewrite on_connection_update_open by exact Ho. constructor. }
  destruct (decide (connection u = Some "close")) as [Hc|Hc].
  - destruct (decide (statusCode u = Some loggedOut)) as [Hs|Hs].
    + rewrite on_connection_update_logged_out by assumption. constructor.
    + rewrite on_connection_update_reconnect by assumption. constructor.
  - rewrite on_connection_update_other by assumption. constructor.
Qed.

Lemma on_messages_upsert_world sessionId sock msgs type orc w :
  world_of (on_messages_upsert sessionId sock msgs type orc w) = w.
Proof.
  unfold on_messages_upsert.
  destruct (decide (type ≠ "notify")); [reflexivity|apply for_of_world].
Qed.

Lemma api_status_world sessionId w : world_of (api_status sessionId w) = w.
Proof.
  unfold api_status. unfold_m. destruct (sessions w !! sessionId); reflexivity.
Qed.

(** ** The registry invariant *)

Lemma quiet_refl w : quiet w w.
Proof. repeat split. Qed.

Lemma quiet_mark_closed h w : quiet w (mark_closed h w).
Proof.
  repeat split. intros h'. unfold closure_of, mark_closed. cbn [with_socks socks].
  rewrite list_lookup_alter. case_decide as Heq; [|reflexivity].
  subst h'. destruct (socks w !! h); reflexivity.
Qed.

Lemma quiet_with_timers f w : quiet w (with_timers f w).
Proof. repeat split. Qed.

Lemma bound_quiet w w1 : quiet w w1 → bound w → bound w1.
Proof.
  intros (Hs & _ & Hc) Hb sid s h Hl Hh. rewrite Hs in Hl.
  destruct (Hb sid s h Hl Hh) as (phone & Hcl & Hp).
  exists phone. rewrite Hc. split; assumption.
Qed.

Lemma closure_of_created_old sid phone w h c :
  closure_of h w = Some c → closure_of h (created sid phone w) = Some c.
Proof.
  unfold closure_of, created. cbn [with_sessions with_socks socks].
  intros H. destruct (socks w !! h) as [k|] eqn:Hk; [|discriminate].
  rewrite (lookup_app_l_Some _ _ _ _ Hk). exact H.
Qed.

Lemma closure_of_created_new sid phone w :
  closure_of (length (socks w)) (created sid phone w) = Some (sid, phone).
Proof.
  unfold closure_of, created. cbn [with_sessions with_socks socks].
  rewrite lookup_app_r, Nat.sub_diag by reflexivity. reflexivity.
Qed.

Lemma bound_registry_change w w' : registry_change w w' → bound w → bound w'.
Proof.
  intros Hc Hb. destruct Hc as [|sid phone|sid|sid|t]; try exact Hb.
  - intros sid' s h Hl Hh. unfold created in Hl. cbn [with_sessions sessions] in Hl.
    apply lookup_insert_Some in Hl as [[<- <-]|[Hne Hl]].
    + cbn [sock] in Hh. inversion Hh; subst h. exists phone.
      split; [apply closure_of_created_new|reflexivity].
    + destruct (Hb sid' s h Hl Hh) as (p & Hcl & Hp). exists p.
      split; [apply closure_of_created_old; exact Hcl|exact Hp].
  - intros sid' s h Hl Hh. cbn [with_sessions sessions] in Hl.
    apply lookup_delete_Some in Hl as [_ Hl]. exact (Hb sid' s h Hl Hh).
  - intros sid' s h Hl Hh. cbn [with_sessions sessions] in Hl.
    apply lookup_insert_Some in Hl as [[<- <-]|[Hne Hl]].
    + destruct (sessions w !! sid) as [s0|] eqn:H0; cbn [spread_status sock] in Hh.
      * destruct (Hb sid s0 h H0 Hh) as (p & Hcl & Hp). exists p.
        split; [exact Hcl|exact Hp].
      * discriminate.
    + exact (Hb sid' s h Hl Hh).
Qed.

Lemma wss_on_connection_run ws sessionId w :
  wss_on_connection ws sessionId w
  = if JsString.falsy sessionId then
      (Normal tt, set_readyState ws CLOSING w, [WsCloseCall ws 1008 "sessionId required"])
    else
      let sid := default "" sessionId in
      (Normal tt,
       with_chans (alter (λ c, mkChan (Some sid) (ch_readyState c)) ws)
         (with_wsClients <[sid := subscribers sid w ++ [ws]]> w),
       match sessions w !! sid with
       | Some s => [WsSend ws (EvConnection (status s))]
       | None => []
       end).
Proof.
  unfold wss_on_connection. destruct (JsString.falsy sessionId); [reflexivity|].
  cbv zeta. unfold_m. unfold subscribers.
  destruct (wsClients w !! default "" sessionId) as [l|] eqn:Hl.
  - rewrite bool_decide_eq_true_2 by eauto.
    cbn [with_wsClients with_chans sessions wsClients socks timers chans].
    destruct (sessions w !! default "" sessionId);
      unfold with_wsClients, with_chans;
      cbn [sessions wsClients socks timers chans];
      rewrite Hl; reflexivity.
  - rewrite bool_decide_eq_false_2 by (intros [x Hx]; discriminate).
    cbn [with_wsClients with_chans sessions wsClients socks timers chans].
    destruct (sessions w !! default "" sessionId);
      unfold with_wsClients, with_chans;
      cbn [sessions wsClients socks timers chans];
      rewrite lookup_insert_eq, insert_insert_eq; reflexivity.
Qed.

Lemma ws_on_close_run sessionId ws w :
  ws_on_close sessionId ws w
  = (Normal tt,
     with_wsClients <[sessionId := filter (λ c, c ≠ ws) (subscribers sessionId w)]> w,
     []).
Proof. reflexivity. Qed.

Lemma exec_cases w i w' t :
  exec w i = Some (w', t) →
  (∃ w1, quiet w w1 ∧ registry_change w1 w') ∨
  (is_ws_input i ∧ sessions w' = sessions w ∧ socks w' = socks w).
Proof.
  destruct i as [sid phone o|sid|sid to msg o|sid o|sid| |h u|h msgs type o|n setup|sid|c|c];
    cbn [exec]; intros H.
  - injection H as <- _. left. exists w. split; [apply quiet_refl|apply api_pair_change].
  - injection H as <- _. left. exists w. split; [apply quiet_refl|].
    rewrite api_status_world. constructor.
  - injection H as <- _. left. exists w. split; [apply quiet_refl|].
    rewrite api_send_world. constructor.
  - injection H as <- _. left. exists w. split; [apply quiet_refl|apply api_disconnect_change].
  - injection H as <- _. left. exists w. split; [apply quiet_refl|constructor].
  - injection H as <- _. left. exists w. split; [apply quiet_refl|constructor].
  - destruct (socks w !! h) as [k|]; [|discriminate].
    destruct (sk_live k); [|discriminate].
    injection H as <- _. left.
    destruct (decide (connection u = Some "close")).
    + exists (mark_closed h w). split; [apply quiet_mark_closed|].
      apply on_connection_update_change.
    + exists w. split; [apply quiet_refl|apply on_connection_update_change].
  - destruct (socks w !! h) as [k|]; [|discriminate].
    destruct (sk_live k); [|discriminate].
    injection H as <- _. left. exists w. split; [apply quiet_refl|].
    rewrite on_messages_upsert_world. constructor.
  - destruct (timers w !! n) as [tm|]; [|discriminate].
    injection H as <- _. left. exists (with_timers (delete n) w).
    split; [apply quiet_with_timers|apply createSession_change].
  - injection H as <- _. right. split; [exact I|].
    rewrite wss_on_connection_run.
    destruct (JsString.falsy sid); split; reflexivity.
  - destruct (chans w !! c) as [ch|]; [|discriminate].
    destruct (decide (ch_readyState ch = OPEN)); [|discriminate].
    injection H as <- _. right. repeat split.
  - destruct (chans w !! c) as [ch|]; [|discriminate].
    destruct (decide (ch_readyState ch = CLOSED)); [discriminate|].
    destruct (ch_sessionId ch); injection H as <- _; right; repeat split.
Qed.

Lemma run_invariant (P : World → Prop) :
  (∀ w i w' t, P w → exec w i = Some (w', t) → P w') →
  ∀ inputs w0 w, P w0 → run w0 inputs = Some w → P w.
Proof.
  intros Hstep. induction inputs as [|i rest IH]; intros w0 w H0 Hrun.
  - injection Hrun as <-. exact H0.
  - cbn [run] in Hrun. destruct (exec w0 i) as [[w1 t]|] eqn:He; [|discriminate].
    apply (IH w1 w); [|exact Hrun]. exact (Hstep w0 i w1 t H0 He).
Qed.

Lemma bound_exec w i w' t : bound w → exec w i = Some (w', t) → bound w'.
Proof.
  intros Hb He. destruct (exec_cases _ _ _ _ He) as [(w1 & Hq & Hc)|(_ & Hs & Hk)].
  - apply (bound_registry_change w1 w' Hc). exact (bound_quiet w w1 Hq Hb).
  - intros sid s h Hl Hh. rewrite Hs in Hl.
    destruct (Hb sid s h Hl Hh) as (p & Hcl & Hp). exists p.
    unfold closure_of in *. rewrite Hk. split; assumption.
Qed.

Lemma bound_reachable w : reachable w → bound w.
Proof.
  intros (inputs & Hrun).
  apply (run_invariant bound bound_exec inputs init w); [|exact Hrun].
  intros sid s h Hl. cbn in Hl. rewrite lookup_empty in Hl. discriminate.
Qed.

Lemma closure_of_lt h w c : closure_of h w = Some c → (h < length (socks w))%nat.
Proof.
  unfold closure_of. destruct (socks w !! h) as [k|] eqn:Hk; [|discriminate].
  intros _. exact (lookup_lt_Some _ _ _ Hk).
Qed.

Lemma bound_registered w sid h :
  bound w → registered_handle sid w = Some h →
  ∃ phone, closure_of h w = Some (sid, phone).
Proof.
  unfold registered_handle. intros Hb Hr.
  destruct (sessions w !! sid) as [s|] eqn:Hs; [|discriminate].
  destruct (Hb sid s h Hs Hr) as (phone & Hc & _). eauto.
Qed.

Lemma is_live_for_created sid phone sid' w h :
  is_live_for sid' w h = true → is_live_for sid' (created sid phone w) h = true.
Proof.
  unfold is_live_for, created. cbn [with_sessions with_socks socks].
  destruct (socks w !! h) as [k|] eqn:Hk; [|discriminate].
  rewrite (lookup_app_l_Some _ _ _ _ Hk). trivial.
Qed.

(** C1 (as amended).  In every reachable state the registry holds at most
    one handle per id, that handle was created for this very id, and no
    handle is held under two ids.  [createSession], whether called by the
    pairing route or by a reconnection timer, puts a fresh handle in the
    entry of its id, in status [connecting], and leaves the entries of the
    other ids alone; the handle it replaces is not retired: every handle
    that was live for the id is live for it afterwards. *)
Theorem registry_supersedes (w : World) :
  reachable w →
  (∀ sid h, registered_handle sid w = Some h →
     ∃ phone, closure_of h w = Some (sid, phone)) ∧
  (∀ sid1 sid2 h, registered_handle sid1 w = Some h →
     registered_handle sid2 w = Some h → sid1 = sid2) ∧
  (∀ sid phone,
     let r := createSession sid phone None w in
     let h := length (socks w) in
     result_of r = Normal h ∧
     sessions (world_of r) !! sid = Some (mkSession (Some h) (Some phone) "connecting") ∧
     registered_handle sid (world_of r) = Some h ∧
     registered_handle sid w ≠ Some h ∧
     closure_of h (world_of r) = Some (sid, phone) ∧
     (∀ sid', sid' ≠ sid → sessions (world_of r) !! sid' = sessions w !! sid') ∧
     (∀ h', is_live_for sid w h' = true → is_live_for sid (world_of r) h' = true)) ∧
  (∀ i t w' log, timers w !! i = Some t →
     exec w (TimerFire i None) = Some (w', log) →
     registered_handle (t_sessionId t) w' = Some (length (socks w))).
Proof.
  intros Hr. pose proof (bound_reachable w Hr) as Hb.
  split; [|split; [|split]].
  - intros sid h. apply bound_registered. exact Hb.
  - intros sid1 sid2 h H1 H2.
    destruct (bound_registered w sid1 h Hb H1) as (p1 & Hc1).
    destruct (bound_registered w sid2 h Hb H2) as (p2 & Hc2).
    congruence.
  - intros sid phone. cbv zeta. rewrite createSession_run_ok.
    unfold result_of, world_of. cbn [fst snd].
    split; [reflexivity|].
    split; [unfold created; cbn [with_sessions sessions]; apply lookup_insert_eq|].
    split; [unfold registered_handle, created; cbn [with_sessions sessions];
            rewrite lookup_insert_eq; reflexivity|].
    split; [|split; [apply closure_of_created_new|split]].
    + intros Hold. destruct (bound_registered w sid _ Hb Hold) as (p & Hc).
      apply closure_of_lt in Hc. lia.
    + intros sid' Hne. unfold created. cbn [with_sessions sessions].
      apply lookup_insert_ne. congruence.
    + intros h'. apply is_live_for_created.
  - intros i t w' log Ht He. cbn [exec] in He. rewrite Ht in He.
    injection He as <- _. rewrite createSession_run_ok.
    unfold outcome, world_of, registered_handle, created.
    cbn [fst snd with_sessions with_timers sessions socks].
    rewrite lookup_insert_eq. reflexivity.
Qed.

(** ** A status update after removal *)

(** C3.  When the registry has no entry for the id, the open event of a
    handle bound to that id completes without throwing and puts an entry
    into the registry: one with status [connected] and neither handle nor
    phone number. *)
Theorem open_after_removal_inserts_entry
    (sessionId phoneNumber : string) (u : ConnectionUpdate) (w : World) :
  sessions w !! sessionId = None → connection u = Some "open" →
  let r := on_connection_update sessionId phoneNumber u w in
  result_of r = Normal tt ∧
  sessions (world_of r) !! sessionId = Some (mkSession None None "connected").
Proof.
  intros Hn Ho. cbv zeta. rewrite (on_connection_update_open _ _ _ _ Ho).
  unfold result_of, world_of. cbn [fst snd with_sessions sessions].
  rewrite lookup_insert_eq, Hn. split; reflexivity.
Qed.

(** The entry so inserted makes the routes that use [session.sock] throw. *)
Lemma handleless_entry_breaks_routes (sessionId : string) (w : World) outcome :
  sessions w !! sessionId = Some (mkSession None None "connected") →
  api_send (Some sessionId) (Some "15557654321") "hi" outcome w
  = (Normal (mkResponse 500 (ErrorBody (type_error "sendMessage"))), w, []) ∧
  api_disconnect sessionId outcome w = (Thrown (type_error "logout"), w, []).
Proof.
  intros Hs. split.
  - unfold api_send. unfold_m. cbn [sessions_get]. rewrite Hs. reflexivity.
  - unfold api_disconnect. unfold_m. rewrite Hs. reflexivity.
Qed.

(** ** Subscriber lists *)

Lemma subscribers_insert sid sid' l w :
  subscribers sid' (with_wsClients <[sid := l]> w)
  = if decide (sid = sid') then l else subscribers sid' w.
Proof.
  unfold subscribers. cbn [with_wsClients wsClients].
  rewrite lookup_insert. case_decide; reflexivity.
Qed.

Lemma subscribers_same w w' sid :
  wsClients w' = wsClients w → subscribers sid w' = subscribers sid w.
Proof. unfold subscribers. intros ->. reflexivity. Qed.

Lemma exec_closed_subscribers w c w' t sid :
  exec w (WsClosed c) = Some (w', t) →
  subscribers sid w' = subscribers sid w ∨
  subscribers sid w' = filter (λ c', c' ≠ c) (subscribers sid w).
Proof.
  cbn [exec]. intros H.
  destruct (chans w !! c) as [ch|]; [|discriminate].
  destruct (decide (ch_readyState ch = CLOSED)); [discriminate|].
  destruct (ch_sessionId ch) as [sid0|]; injection H as <- _.
  - rewrite ws_on_close_run. unfold outcome, world_of. cbn [fst snd].
    rewrite subscribers_insert. case_decide as Heq.
    + subst sid0. right. reflexivity.
    + left. reflexivity.
  - left. reflexivity.
Qed.

Lemma exec_subscribers_kept w i w' t sid c :
  exec w i = Some (w', t) →
  c ∈ subscribers sid w → c ∉ subscribers sid w' → i = WsClosed c.
Proof.
  intros He Hin Hout.
  destruct (exec_cases _ _ _ _ He) as [(w1 & (_ & Hq & _) & Hc)|(Hws & _)].
  - exfalso. apply Hout.
    apply registry_change_subscribers in Hc as [Hc _].
    rewrite (subscribers_same w w' sid) by congruence. exact Hin.
  - destruct i as [| | | | | | | | |sid0|c0|c0]; try contradiction.
    + exfalso. apply Hout. cbn [exec] in He. injection He as <- _.
      rewrite wss_on_connection_run.
      destruct (JsString.falsy sid0); unfold outcome, world_of; cbn [fst snd].
      * exact Hin.
      * cbv zeta.
        change (subscribers sid (with_chans ?f ?x)) with (subscribers sid x).
        rewrite subscribers_insert. case_decide as Heq.
        -- subst sid. apply elem_of_app. left. exact Hin.
        -- exact Hin.
    + exfalso. apply Hout. cbn [exec] in He.
      destruct (chans w !! c0) as [ch|]; [|discriminate].
      destruct (decide (ch_readyState ch = OPEN)); [|discriminate].
      injection He as <- _. exact Hin.
    + destruct (exec_closed_subscribers _ _ _ _ sid He) as [Hs|Hs].
      * exfalso. apply Hout. rewrite Hs. exact Hin.
      * destruct (decide (c = c0)) as [->|Hne]; [reflexivity|].
        exfalso. apply Hout. rewrite Hs. apply list_elem_of_filter.
        split; assumption.
Qed.

(** C10.  [broadcast] returns the state it was given: registry and
    subscriber lists are the same afterwards, and a subscriber that is not
    open is neither sent to nor removed.  Among all callbacks of the loop,
    only the close event of a channel takes that channel out of a
    subscriber list, and it keeps every other subscriber, in order. *)
Theorem broadcast_frame (sessionId : string) (data : wsEvent) (w : World) :
  world_of (broadcast sessionId data w) = w ∧
  (∀ c, c ∈ subscribers sessionId w → readyState c w ≠ OPEN →
     (WsSend c data ∉ calls_of (broadcast sessionId data w)) ∧
     (c ∈ subscribers sessionId (world_of (broadcast sessionId data w)))) ∧
  (∀ i w' t sid c, exec w i = Some (w', t) →
     c ∈ subscribers sid w → c ∉ subscribers sid w' → i = WsClosed c) ∧
  (∀ c w' t sid, exec w (WsClosed c) = Some (w', t) →
     filter (λ c', c' ≠ c) (subscribers sid w')
     = filter (λ c', c' ≠ c) (subscribers sid w)).
Proof.
  rewrite broadcast_run. unfold world_of, calls_of. cbn [fst snd].
  split; [reflexivity|]. split; [|split].
  - intros c Hin Hno. split; [|exact Hin].
    unfold deliveries. rewrite list_elem_of_fmap. intros (c' & Heq & Hc').
    inversion Heq; subst c'. apply list_elem_of_filter in Hc' as [Ho _].
    exact (Hno Ho).
  - intros i w' t sid c. apply exec_subscribers_kept.
  - intros c w' t sid He.
    destruct (exec_closed_subscribers _ _ _ _ sid He) as [->| ->]; [reflexivity|].
    rewrite list_filter_filter. apply list_filter_iff. tauto.
Qed.

(** * Further properties of the server *)

(** ** One callback, one transition *)

Lemma falsy_false_nonempty (s : option string) :
  JsString.falsy s = false → default "" s ≠ "".
Proof. destruct s as [[|c r]|]; cbn; intros H; congruence. Qed.

Lemma exec_transition w i w' t : exec w i = Some (w', t) → transition w w'.
Proof.
  destruct i as [sid phone o|sid|sid to msg o|sid o|sid| |h u|h msgs type o|n setup|sid|c|c];
    cbn [exec]; intros H.
  - injection H as <- _.
    destruct (JsString.falsy sid || JsString.falsy phone) eqn:Hf.
    + rewrite api_pair_run_missing by exact Hf. constructor.
    + rewrite api_pair_run by exact Hf.
      destruct (setup_outcome o), (pairing_outcome o); constructor.
  - injection H as <- _. rewrite api_status_world. constructor.
  - injection H as <- _. rewrite api_send_world. constructor.
  - injection H as <- _. unfold api_disconnect. unfold_m.
    destruct (sessions w !! sid) as [s|]; [|constructor].
    unfold sock_logout. unfold_m. destruct (sock s), o; constructor.
  - injection H as <- _. constructor.
  - injection H as <- _. constructor.
  - destruct (socks w !! h) as [k|] eqn:Hk; [|discriminate].
    destruct (sk_live k) eqn:Hl; [|discriminate].
    injection H as <- _.
    destruct (decide (connection u = Some "close")) as [Hc|Hc].
    + destruct (decide (statusCode u = Some loggedOut)) as [Hs|Hs].
      * rewrite on_connection_update_logged_out by assumption.
        exact (tr_logged_out w h k Hk Hl).
      * rewrite on_connection_update_reconnect by assumption.
        exact (tr_reconnect w h k Hk Hl).
    + destruct (decide (connection u = Some "open")) as [Ho|Ho].
      * rewrite on_connection_update_open by exact Ho.
        exact (tr_opened w h k Hk Hl).
      * rewrite on_connection_update_other by assumption. constructor.
  - destruct (socks w !! h) as [k|]; [|discriminate].
    destruct (sk_live k); [|discriminate].
    injection H as <- _. rewrite on_messages_upsert_world. constructor.
  - destruct (timers w !! n) as [tm|] eqn:Ht; [|discriminate].
    injection H as <- _. destruct setup as [e|].
    + rewrite createSession_run_fail. exact (tr_timer_failed w n tm Ht).
    + rewrite createSession_run_ok. exact (tr_timer_ok w n tm Ht).
  - injection H as <- _. rewrite wss_on_connection_run.
    destruct (JsString.falsy sid) eqn:Hf.
    + constructor.
    + exact (tr_subscribed w (default "" sid) (falsy_false_nonempty sid Hf)).
  - destruct (chans w !! c) as [ch|] eqn:Hc; [|discriminate].
    destruct (decide (ch_readyState ch = OPEN)) as [Ho|]; [|discriminate].
    injection H as <- _. exact (tr_closing w c ch Hc Ho).
  - destruct (chans w !! c) as [ch|] eqn:Hc; [|discriminate].
    destruct (decide (ch_readyState ch = CLOSED)) as [|Hn]; [discriminate|].
    destruct (ch_sessionId ch) as [sid|] eqn:Hs; injection H as <- _.
    + rewrite ws_on_close_run. exact (tr_closed w c ch sid Hc Hn Hs).
    + exact (tr_closed_unbound w c ch Hc Hn Hs).
Qed.

Lemma reachable_invariant (P : World → Prop) :
  P init → (∀ w w', P w → transition w w' → P w') → ∀ w, reachable w → P w.
Proof.
  intros H0 Hstep w (inputs & Hrun).
  apply (run_invariant P) with (inputs := inputs) (w0 := init); [|exact H0|exact Hrun].
  intros w1 i w2 t HP He. apply (Hstep w1 w2 HP). exact (exec_transition _ _ _ _ He).
Qed.

(** ** Stored statuses *)

Lemma statuses_stored_transition w w' :
  statuses_stored w → transition w w' → statuses_stored w'.
Proof.
  intros Hs Ht.
  destruct Ht as [|sid phone|sid|h k Hk Hl|h k Hk Hl|h k Hk Hl|i t Hi|i t Hi
                  | |sid Hsid|c ch Hc Ho|c ch sid Hc Hn Hb|c ch Hc Hn Hb];
    try exact Hs; intros sid' s Hl'; cbn [created with_sessions sessions] in Hl'.
  - apply lookup_insert_Some in Hl' as [[_ <-]|[_ Hl']]; [left; reflexivity|].
    exact (Hs sid' s Hl').
  - apply lookup_delete_Some in Hl' as [_ Hl']. exact (Hs sid' s Hl').
  - apply lookup_insert_Some in Hl' as [[_ <-]|[_ Hl']]; [|exact (Hs sid' s Hl')].
    right. destruct (sessions w !! sk_sessionId k); reflexivity.
  - apply lookup_delete_Some in Hl' as [_ Hl']. exact (Hs sid' s Hl').
  - apply lookup_insert_Some in Hl' as [[_ <-]|[_ Hl']]; [left; reflexivity|].
    exact (Hs sid' s Hl').
Qed.

Lemma statuses_stored_reachable w : reachable w → statuses_stored w.
Proof.
  apply reachable_invariant.
  - intros sid s H. cbn in H. rewrite lookup_empty in H. discriminate.
  - apply statuses_stored_transition.
Qed.

Lemma api_status_run sessionId w :
  api_status sessionId w
  = (Normal (mkResponse 200 (StatusBody match sessions w !! sessionId with
                                        | Some s => status s
                                        | None => "not_found"
                                        end)), w, []).
Proof.
  unfold api_status. unfold_m. destruct (sessions w !! sessionId); reflexivity.
Qed.

(** X1.  In every reachable state [GET /api/status/:sessionId] answers 200
    with [not_found], [connecting] or [connected], changes nothing and calls
    nobody; it answers [not_found] exactly when the registry has no entry
    for the id.  The status [logged_out] is never stored, so never
    reported. *)
Theorem status_route_reports (w : World) (sessionId : string) :
  reachable w →
  ∃ st,
    api_status sessionId w = (Normal (mkResponse 200 (StatusBody st)), w, []) ∧
    (st = "not_found" ∨ st = "connecting" ∨ st = "connected") ∧
    (st = "not_found" ↔ sessions w !! sessionId = None) ∧
    st ≠ "logged_out".
Proof.
  intros Hr. pose proof (statuses_stored_reachable w Hr sessionId) as Hs.
  rewrite api_status_run.
  destruct (sessions w !! sessionId) as [s|].
  - exists (status s). destruct (Hs s eq_refl) as [-> | ->];
      (split; [reflexivity|]); (split; [tauto|]); split;
      try discriminate; split; discriminate.
  - exists "not_found". split; [reflexivity|]. split; [tauto|].
    split; [tauto|discriminate].
Qed.

(** ** Closures and phone numbers *)

Lemma created_socks_lookup sid phone w j k :
  socks (created sid phone w) !! j = Some k →
  socks w !! j = Some k ∨ k = mkSock sid phone true.
Proof.
  unfold created. cbn [with_sessions with_socks socks]. intros H.
  apply lookup_app_Some in H as [H|[_ H]]; [left; exact H|right].
  destruct (j - length (socks w))%nat; cbn in H; [congruence|discriminate].
Qed.

Lemma created_socks_kept sid phone w j k :
  socks w !! j = Some k → socks (created sid phone w) !! j = Some k.
Proof.
  unfold created. cbn [with_sessions with_socks socks]. apply lookup_app_l_Some.
Qed.

Lemma mark_closed_lookup h w j k' :
  socks (mark_closed h w) !! j = Some k' →
  ∃ k, socks w !! j = Some k ∧ sk_sessionId k' = sk_sessionId k ∧
       sk_phoneNumber k' = sk_phoneNumber k.
Proof.
  unfold mark_closed. cbn [with_socks socks]. rewrite list_lookup_alter.
  case_decide as Heq.
  - subst j. destruct (socks w !! h) as [k|]; cbn; [|discriminate].
    intros H. injection H as <-. exists k. repeat split.
  - intros H. exists k'. repeat split. exact H.
Qed.

Lemma mark_closed_kept h w j k :
  socks w !! j = Some k →
  ∃ k', socks (mark_closed h w) !! j = Some k' ∧
        sk_sessionId k' = sk_sessionId k ∧ sk_phoneNumber k' = sk_phoneNumber k ∧
        (sk_live k = false ∨ j = h → sk_live k' = false).
Proof.
  intros Hk. unfold mark_closed. cbn [with_socks socks]. rewrite list_lookup_alter.
  case_decide as Heq.
  - subst j. rewrite Hk. cbn. eexists. repeat split.
  - exists k. repeat split; [exact Hk|]. intros [H|H]; [exact H|congruence].
Qed.

Lemma phones_digits_transition w w' :
  phones_digits w → transition w w' → phones_digits w'.
Proof.
  intros (Hk & Ht & Hs) Htr.
  destruct Htr as [|sid phone|sid|h k Hh Hl|h k Hh Hl|h k Hh Hl|i t Hi|i t Hi
                   | |sid Hsid|c ch Hc Ho|c ch sid Hc Hn Hb|c ch Hc Hn Hb];
    try (split; [exact Hk|split; [exact Ht|exact Hs]]).
  - split; [|split; [exact Ht|]].
    + intros j k Hj. apply created_socks_lookup in Hj as [Hj| ->]; [exact (Hk j k Hj)|].
      apply replace_non_digits_digits_only.
    + intros sid' s p Hl Hp. unfold created in Hl. cbn [with_sessions sessions] in Hl.
      apply lookup_insert_Some in Hl as [[_ <-]|[_ Hl]]; [|exact (Hs sid' s p Hl Hp)].
      cbn in Hp. injection Hp as <-. apply replace_non_digits_digits_only.
  - split; [exact Hk|split; [exact Ht|]].
    intros sid' s p Hl Hp. cbn [with_sessions sessions] in Hl.
    apply lookup_delete_Some in Hl as [_ Hl]. exact (Hs sid' s p Hl Hp).
  - split; [exact Hk|split; [exact Ht|]].
    intros sid' s p Hl' Hp. cbn [with_sessions sessions] in Hl'.
    apply lookup_insert_Some in Hl' as [[_ <-]|[_ Hl']]; [|exact (Hs sid' s p Hl' Hp)].
    destruct (sessions w !! sk_sessionId k) as [s0|] eqn:H0; cbn in Hp; [|discriminate].
    exact (Hs _ s0 p H0 Hp).
  - split; [|split; [exact Ht|]].
    + intros j k' Hj. apply mark_closed_lookup in Hj as (k0 & Hj & _ & Hp).
      rewrite Hp. exact (Hk j k0 Hj).
    + intros sid' s p Hl' Hp. cbn [with_sessions sessions mark_closed with_socks] in Hl'.
      apply lookup_delete_Some in Hl' as [_ Hl']. exact (Hs sid' s p Hl' Hp).
  - split; [|split; [|exact Hs]].
    + intros j k' Hj. apply mark_closed_lookup in Hj as (k0 & Hj & _ & Hp).
      rewrite Hp. exact (Hk j k0 Hj).
    + intros t Hin. cbn [with_timers timers mark_closed with_socks] in Hin.
      apply elem_of_app in Hin as [Hin|Hin]; [exact (Ht t Hin)|].
      apply list_elem_of_singleton in Hin. subst t. cbn. exact (Hk h k Hh).
  - assert (Hti : t ∈ timers w) by (apply list_elem_of_lookup; eauto).
    split; [|split].
    + intros j k Hj. apply created_socks_lookup in Hj as [Hj| ->]; [exact (Hk j k Hj)|].
      exact (Ht t Hti).
    + intros t' Hin. unfold created in Hin. cbn [with_sessions with_socks with_timers timers] in Hin.
      apply list_elem_of_delete_inv in Hin. exact (Ht t' Hin).
    + intros sid' s p Hl Hp. unfold created in Hl. cbn [with_sessions sessions] in Hl.
      apply lookup_insert_Some in Hl as [[_ <-]|[_ Hl]]; [|exact (Hs sid' s p Hl Hp)].
      cbn in Hp. injection Hp as <-. exact (Ht t Hti).
  - split; [exact Hk|split; [|exact Hs]].
    intros t' Hin. cbn [with_timers timers] in Hin.
    apply list_elem_of_delete_inv in Hin. exact (Ht t' Hin).
Qed.

Lemma phones_digits_reachable w : reachable w → phones_digits w.
Proof.
  apply reachable_invariant; [|apply phones_digits_transition].
  split; [|split].
  - intros h k H. discriminate.
  - intros t H. apply not_elem_of_nil in H. contradiction.
  - intros sid s p H. cbn in H. rewrite lookup_empty in H. discriminate.
Qed.

(** X2.  In every reachable state every phone number the server keeps is
    digits-only: the one in a registry entry, the one a handle's handlers
    close over, and the one a pending reconnection timer will pass to
    [createSession]. *)
Theorem stored_phone_numbers_are_digits (w : World) :
  reachable w →
  (∀ sid s p, sessions w !! sid = Some s → phoneNumber s = Some p →
     digits_only p = true) ∧
  (∀ h k, socks w !! h = Some k → digits_only (sk_phoneNumber k) = true) ∧
  (∀ t, t ∈ timers w → digits_only (t_phoneNumber t) = true).
Proof.
  intros Hr. destruct (phones_digits_reachable w Hr) as (Hk & Ht & Hs).
  split; [exact Hs|split; [exact Hk|exact Ht]].
Qed.

(** ** Pending reconnection timers *)

Lemma timers_of_closed_transition w w' :
  timers_of_closed w → transition w w' → timers_of_closed w'.
Proof.
  intros Hinv Htr.
  assert (Hgrow : ∀ sid phone w0 t,
            (t_delay t = 5000 ∧
             ∃ h k, socks w0 !! h = Some k ∧ sk_live k = false ∧
                    sk_sessionId k = t_sessionId t ∧ sk_phoneNumber k = t_phoneNumber t) →
            t_delay t = 5000 ∧
            ∃ h k, socks (created sid phone w0) !! h = Some k ∧ sk_live k = false ∧
                   sk_sessionId k = t_sessionId t ∧ sk_phoneNumber k = t_phoneNumber t).
  { intros sid phone w0 t (Hd & h & k & Hk & Hrest). split; [exact Hd|].
    exists h, k. split; [apply created_socks_kept; exact Hk|exact Hrest]. }
  assert (Hclose : ∀ h0 t,
            (t_delay t = 5000 ∧
             ∃ h k, socks w !! h = Some k ∧ sk_live k = false ∧
                    sk_sessionId k = t_sessionId t ∧ sk_phoneNumber k = t_phoneNumber t) →
            t_delay t = 5000 ∧
            ∃ h k, socks (mark_closed h0 w) !! h = Some k ∧ sk_live k = false ∧
                   sk_sessionId k = t_sessionId t ∧ sk_phoneNumber k = t_phoneNumber t).
  { intros h0 t (Hd & h & k & Hk & Hl & Hs & Hp). split; [exact Hd|].
    destruct (mark_closed_kept h0 w h k Hk) as (k' & Hk' & Hs' & Hp' & Hl').
    exists h, k'. split; [exact Hk'|]. split; [apply Hl'; left; exact Hl|].
    split; congruence. }
  destruct Htr as [|sid phone|sid|h k Hh Hl|h k Hh Hl|h k Hh Hl|i t Hi|i t Hi
                   | |sid Hsid|c ch Hc Ho|c ch sid Hc Hn Hb|c ch Hc Hn Hb];
    try exact Hinv; intros t' Hin.
  - apply Hgrow. exact (Hinv t' Hin).
  - apply Hclose. exact (Hinv t' Hin).
  - cbn [with_timers timers mark_closed with_socks] in Hin.
    apply elem_of_app in Hin as [Hin|Hin].
    + apply (Hclose h t'). exact (Hinv t' Hin).
    + apply list_elem_of_singleton in Hin. subst t'. split; [reflexivity|].
      destruct (mark_closed_kept h w h k Hh) as (k' & Hk' & Hs' & Hp' & Hl').
      exists h, k'. cbn [t_sessionId t_phoneNumber].
      split; [exact Hk'|]. split; [apply Hl'; right; reflexivity|]. split; assumption.
  - unfold created in Hin. cbn [with_sessions with_socks with_timers timers] in Hin.
    apply list_elem_of_delete_inv in Hin.
    apply (Hgrow _ _ (with_timers (delete i) w)). exact (Hinv t' Hin).
  - cbn [with_timers timers] in Hin. apply list_elem_of_delete_inv in Hin.
    exact (Hinv t' Hin).
Qed.

Lemma timers_of_closed_reachable w : reachable w → timers_of_closed w.
Proof.
  apply reachable_invariant; [|apply timers_of_closed_transition].
  intros t H. apply not_elem_of_nil in H. contradiction.
Qed.

(** X3.  In every reachable state each pending reconnection timer has the
    delay of 5000 ms and carries the session id and phone number of a
    handle that the transport has reported closed. *)
Theorem pending_timers_belong_to_closed_handles (w : World) (t : Timer) :
  reachable w → t ∈ timers w →
  t_delay t = 5000 ∧
  ∃ h k, socks w !! h = Some k ∧ sk_live k = false ∧
         sk_sessionId k = t_sessionId t ∧ sk_phoneNumber k = t_phoneNumber t.
Proof. intros Hr. apply timers_of_closed_reachable. exact Hr. Qed.

(** X4.  When the set-up of a reconnection attempt fails, the timer is
    consumed, no handle is made, the registry is unchanged and no new timer
    is scheduled, so the code does not retry; the promise of the timer's
    callback is rejected with the set-up error, and no code handles that
    rejection. *)
Theorem failed_reconnection_is_not_retried
    (w : World) (i : nat) (t : Timer) (e : string) :
  timers w !! i = Some t →
  exec w (TimerFire i (Some e)) = Some (with_timers (delete i) w, []) ∧
  unhandled_rejection w (TimerFire i (Some e)) = Some e ∧
  length (timers (with_timers (delete i) w)) = pred (length (timers w)) ∧
  sessions (with_timers (delete i) w) = sessions w ∧
  socks (with_timers (delete i) w) = socks w.
Proof.
  intros Ht. cbn [exec unhandled_rejection]. rewrite Ht, createSession_run_fail.
  split; [reflexivity|]. split; [reflexivity|]. split; [|split; reflexivity].
  cbn [with_timers timers]. rewrite length_delete by eauto. lia.
Qed.

(** ** The disconnect route *)

Lemma api_disconnect_run sessionId outcome w :
  api_disconnect sessionId outcome w
  = match sessions w !! sessionId with
    | None => (Normal (mkResponse 200 SuccessBody), w, [])
    | Some s =>
        match sock s, outcome with
        | None, _ => (Thrown (type_error "logout"), w, [])
        | Some h, None =>
            (Normal (mkResponse 200 SuccessBody),
             with_sessions (delete sessionId) w, [SockLogout h])
        | Some h, Some e => (Thrown e, w, [SockLogout h])
        end
    end.
Proof.
  unfold api_disconnect. unfold_m.
  destruct (sessions w !! sessionId) as [s|]; [|reflexivity].
  unfold sock_logout. unfold_m. destruct (sock s), outcome; reflexivity.
Qed.

(** X5.  [POST /api/disconnect/:sessionId]: without a registry entry it
    answers success and touches nothing; with an entry holding a handle it
    calls [logout] on that handle exactly once and, if the call resolves,
    removes the entry, leaves every other entry alone and answers success,
    after which a second disconnect is a no-op; if [logout] is rejected the
    handler ends with that error and the entry stays.  In no case is
    anything pushed to subscribers. *)
Theorem disconnect_route
    (sessionId : string) (outcome : option string) (w : World) :
  let r := api_disconnect sessionId outcome w in
  (sessions w !! sessionId = None →
   r = (Normal (mkResponse 200 SuccessBody), w, [])) ∧
  (∀ s h, sessions w !! sessionId = Some s → sock s = Some h →
     (outcome = None →
      r = (Normal (mkResponse 200 SuccessBody),
           with_sessions (delete sessionId) w, [SockLogout h]) ∧
      sessions (world_of r) !! sessionId = None ∧
      (∀ sid', sid' ≠ sessionId → sessions (world_of r) !! sid' = sessions w !! sid') ∧
      (∀ o', api_disconnect sessionId o' (world_of r)
             = (Normal (mkResponse 200 SuccessBody), world_of r, []))) ∧
     (∀ e, outcome = Some e → r = (Thrown e, w, [SockLogout h]))) ∧
  pushes (calls_of r) = [].
Proof.
  cbv zeta. rewrite api_disconnect_run. split; [|split].
  - intros ->. reflexivity.
  - intros s h -> ->. split.
    + intros ->. unfold world_of. cbn [fst snd with_sessions sessions].
      split; [reflexivity|]. split; [apply lookup_delete_eq|].
      split; [intros sid' Hne; apply lookup_delete_ne; congruence|].
      intros o'. rewrite api_disconnect_run. cbn [with_sessions sessions].
      rewrite lookup_delete_eq. reflexivity.
    + intros e ->. reflexivity.
  - destruct (sessions w !! sessionId) as [s|]; [|reflexivity].
    destruct (sock s), outcome; reflexivity.
Qed.

(** X6.  Disconnecting does not cancel a pending reconnection timer: after
    a successful disconnect of an id the timer scheduled for that id is
    still pending, and when it fires the id has a registry entry again, in
    status [connecting], with a fresh handle and the timer's phone number. *)
Theorem disconnect_keeps_reconnection_timer
    (w : World) (sessionId : string) (s : Session) (h i : nat) (t : Timer) :
  sessions w !! sessionId = Some s → sock s = Some h →
  timers w !! i = Some t → t_sessionId t = sessionId →
  let w1 := world_of (api_disconnect sessionId None w) in
  sessions w1 !! sessionId = None ∧
  timers w1 = timers w ∧
  ∃ w2 log,
    exec w1 (TimerFire i None) = Some (w2, log) ∧
    log = [MakeWASocket (length (socks w))] ∧
    sessions w2 !! sessionId
    = Some (mkSession (Some (length (socks w))) (Some (t_phoneNumber t)) "connecting").
Proof.
  intros Hs Hh Ht Hsid. cbv zeta. rewrite api_disconnect_run, Hs, Hh.
  unfold world_of. cbn [fst snd].
  split; [cbn [with_sessions sessions]; apply lookup_delete_eq|].
  split; [reflexivity|].
  eexists _, _. cbn [exec with_sessions timers]. rewrite Ht, createSession_run_ok.
  unfold outcome, world_of, calls_of. cbn [fst snd].
  split; [reflexivity|]. split; [reflexivity|].
  unfold created. cbn [with_sessions with_timers with_socks sessions socks].
  rewrite Hsid. apply lookup_insert_eq.
Qed.

(** ** The health route *)



(** ** Subscriber lists in reachable states *)

Lemma chans_set_readyState c rs w j :
  chans (set_readyState c rs w) !! j
  = if decide (c = j) then (λ ch, mkChan (ch_sessionId ch) rs) <$> chans w !! c
    else chans w !! j.
Proof. unfold set_readyState. cbn [with_chans chans]. apply list_lookup_alter. Qed.

Lemma subscribers_set_readyState c rs w sid :
  subscribers sid (set_readyState c rs w) = subscribers sid w.
Proof. reflexivity. Qed.

Lemma subscribers_wf_set_open c rs w :
  rs ≠ CLOSED → subscribers_wf w → subscribers_wf (set_readyState c rs w).
Proof.
  intros Hrs Hwf sid. destruct (Hwf sid) as (Hnd & Hin).
  rewrite subscribers_set_readyState. split; [exact Hnd|].
  intros c' Hc'. destruct (Hin c' Hc') as (ch & Hch & Hs & Hr).
  rewrite chans_set_readyState. case_decide as Heq.
  - subst c'. rewrite Hch. cbn. eexists. split; [reflexivity|]. split; assumption.
  - exists ch. repeat split; assumption.
Qed.

Lemma subscribers_wf_new_chan w :
  subscribers_wf w → subscribers_wf (with_chans (λ l, l ++ [mkChan None OPEN]) w).
Proof.
  intros Hwf sid. destruct (Hwf sid) as (Hnd & Hin). split; [exact Hnd|].
  intros c Hc. destruct (Hin c Hc) as (ch & Hch & Hrest).
  exists ch. split; [|exact Hrest]. cbn [with_chans chans].
  apply lookup_app_l_Some. exact Hch.
Qed.

Lemma subscribers_lt w sid c :
  subscribers_wf w → c ∈ subscribers sid w → (c < length (chans w))%nat.
Proof.
  intros Hwf Hc. destruct (proj2 (Hwf sid) c Hc) as (ch & Hch & _).
  exact (lookup_lt_Some _ _ _ Hch).
Qed.

Lemma subscribers_wf_transition w w' :
  subscribers_wf w → transition w w' → subscribers_wf w'.
Proof.
  intros Hwf Htr.
  destruct Htr as [|sid phone|sid|h k Hh Hl|h k Hh Hl|h k Hh Hl|i t Hi|i t Hi
                   | |sid Hsid|c ch Hc Ho|c ch sid Hc Hn Hb|c ch Hc Hn Hb];
    try exact Hwf.
  - apply subscribers_wf_set_open; [discriminate|]. apply subscribers_wf_new_chan. exact Hwf.
  - pose proof (subscribers_wf_new_chan w Hwf) as Hwf0.
    intros sid'.
    change (subscribers sid' (with_chans ?f ?x)) with (subscribers sid' x).
    rewrite subscribers_insert.
    change (subscribers ?s (with_chans ?f w)) with (subscribers s w).
    assert (Hnew : chans (with_chans
                     (alter (λ c, mkChan (Some sid) (ch_readyState c)) (length (chans w)))
                     (with_wsClients <[sid := subscribers sid w ++ [length (chans w)]]>
                        (with_chans (λ l, l ++ [mkChan None OPEN]) w)))
                   !! length (chans w) = Some (mkChan (Some sid) OPEN)).
    { cbn [with_chans with_wsClients chans]. rewrite list_lookup_alter_eq.
      rewrite lookup_app_r, Nat.sub_diag by reflexivity. reflexivity. }
    assert (Hold : ∀ c ch, chans w !! c = Some ch →
              chans (with_chans
                       (alter (λ c, mkChan (Some sid) (ch_readyState c)) (length (chans w)))
                       (with_wsClients <[sid := subscribers sid w ++ [length (chans w)]]>
                          (with_chans (λ l, l ++ [mkChan None OPEN]) w)))
              !! c = Some ch).
    { intros c ch Hch. cbn [with_chans with_wsClients chans].
      rewrite list_lookup_alter_ne by (apply lookup_lt_Some in Hch; lia).
      apply lookup_app_l_Some. exact Hch. }
    destruct (Hwf sid') as (Hnd & Hin).
    case_decide as Heq.
    + subst sid'. split.
      * apply NoDup_app. split; [exact Hnd|]. split; [|apply NoDup_singleton].
        intros c Hc Hc0. apply list_elem_of_singleton in Hc0.
        pose proof (subscribers_lt w sid c Hwf Hc). lia.
      * intros c Hc. apply elem_of_app in Hc as [Hc|Hc].
        -- destruct (Hin c Hc) as (ch & Hch & Hrest). exists ch.
           split; [exact (Hold c ch Hch)|exact Hrest].
        -- apply list_elem_of_singleton in Hc. subst c.
           eexists. split; [exact Hnew|]. split; [reflexivity|discriminate].
    + split; [exact Hnd|]. intros c Hc.
      destruct (Hin c Hc) as (ch & Hch & Hrest). exists ch.
      split; [exact (Hold c ch Hch)|exact Hrest].
  - apply subscribers_wf_set_open; [discriminate|exact Hwf].
  - intros sid'. rewrite subscribers_insert, !subscribers_set_readyState.
    destruct (Hwf sid') as (Hnd & Hin). case_decide as Heq.
    + subst sid'. split; [apply NoDup_filter; exact Hnd|].
      intros c' Hc'. apply list_elem_of_filter in Hc' as [Hne Hc'].
      destruct (Hin c' Hc') as (ch' & Hch' & Hrest). exists ch'.
      split; [|exact Hrest].
      change (chans (with_wsClients ?f ?x)) with (chans x).
      rewrite chans_set_readyState. case_decide; [congruence|exact Hch'].
    + split; [exact Hnd|]. intros c' Hc'.
      destruct (Hin c' Hc') as (ch' & Hch' & Hs' & Hr'). exists ch'.
      split; [|split; assumption].
      change (chans (with_wsClients ?f ?x)) with (chans x).
      rewrite chans_set_readyState. case_decide as Hcc; [|exact Hch'].
      subst c'. congruence.
  - intros sid'. rewrite subscribers_set_readyState.
    destruct (Hwf sid') as (Hnd & Hin). split; [exact Hnd|].
    intros c' Hc'. destruct (Hin c' Hc') as (ch' & Hch' & Hs' & Hr'). exists ch'.
    split; [|split; assumption].
    rewrite chans_set_readyState. case_decide as Hcc; [|exact Hch'].
    subst c'. congruence.
Qed.

Lemma subscribers_wf_reachable w : reachable w → subscribers_wf w.
Proof.
  apply reachable_invariant; [|apply subscribers_wf_transition].
  intros sid. split; [apply NoDup_nil_2|].
  intros c Hc. unfold subscribers in Hc. cbn in Hc. rewrite lookup_empty in Hc.
  apply not_elem_of_nil in Hc. contradiction.
Qed.

Lemma exec_ws_connect sid w :
  sid ≠ "" →
  exec w (WsConnect (Some sid)) = Some (subscribed sid w, snapshot sid w).
Proof.
  intros Hsid. cbn [exec]. rewrite wss_on_connection_run.
  destruct sid as [|a r]; [contradiction|]. reflexivity.
Qed.

Lemma readyState_subscribed sid w c :
  readyState c (subscribed sid w)
  = if decide (c = length (chans w)) then OPEN else readyState c w.
Proof.
  unfold readyState, subscribed. cbn [with_chans with_wsClients chans].
  case_decide as Heq.
  - subst c. rewrite list_lookup_alter_eq, lookup_app_r, Nat.sub_diag by reflexivity.
    reflexivity.
  - rewrite list_lookup_alter_ne by congruence.
    destruct (decide (c < length (chans w))%nat) as [Hlt|Hge].
    + rewrite lookup_app_l by exact Hlt. reflexivity.
    + rewrite (lookup_ge_None_2 (chans w) c) by lia.
      rewrite lookup_ge_None_2; [reflexivity|]. rewrite length_app. cbn. lia.
Qed.

Lemma subscribers_subscribed sid w sid' :
  subscribers sid' (subscribed sid w)
  = if decide (sid = sid') then subscribers sid w ++ [length (chans w)]
    else subscribers sid' w.
Proof.
  unfold subscribed.
  change (subscribers sid' (with_chans ?f ?x)) with (subscribers sid' x).
  rewrite subscribers_insert. reflexivity.
Qed.

Lemma filter_ext_elem {A} (P Q : A → Prop) `{∀ x, Decision (P x)} `{∀ x, Decision (Q x)}
    (l : list A) :
  (∀ x, x ∈ l → (P x ↔ Q x)) → filter P l = filter Q l.
Proof.
  induction l as [|a l IH]; intros Hpq; [reflexivity|].
  rewrite !filter_cons.
  assert (Ha : P a ↔ Q a) by (apply Hpq; apply list_elem_of_here).
  rewrite IH by (intros x Hx; apply Hpq; apply list_elem_of_further; exact Hx).
  destruct (decide (P a)), (decide (Q a)); tauto.
Qed.

(** X8.  In every reachable state a subscriber list holds no channel
    twice, every channel in the list of an id connected with that id and
    has not been closed, and no channel is in the lists of two ids. *)
Theorem subscriber_lists_wellformed (w : World) (sessionId : string) :
  reachable w →
  NoDup (subscribers sessionId w) ∧
  (∀ c, c ∈ subscribers sessionId w →
     ∃ ch, chans w !! c = Some ch ∧ ch_sessionId ch = Some sessionId ∧
           ch_readyState ch ≠ CLOSED) ∧
  (∀ c sid', c ∈ subscribers sessionId w → c ∈ subscribers sid' w → sid' = sessionId).
Proof.
  intros Hr. pose proof (subscribers_wf_reachable w Hr) as Hwf.
  destruct (Hwf sessionId) as (Hnd & Hin). split; [exact Hnd|]. split; [exact Hin|].
  intros c sid' Hc Hc'. destruct (Hin c Hc) as (ch & Hch & Hs & _).
  destruct (proj2 (Hwf sid') c Hc') as (ch' & Hch' & Hs' & _). congruence.
Qed.

(** X9.  In every reachable state one [broadcast] sends to no channel
    twice, and only to channels that connected with the id the event is
    broadcast for: events of one session never reach the subscribers of
    another. *)
Theorem broadcast_is_isolated
    (w : World) (sessionId : string) (data : wsEvent) :
  reachable w →
  NoDup (calls_of (broadcast sessionId data w)) ∧
  (∀ c, WsSend c data ∈ calls_of (broadcast sessionId data w) →
     ∃ ch, chans w !! c = Some ch ∧ ch_sessionId ch = Some sessionId ∧
           ch_readyState ch = OPEN).
Proof.
  intros Hr. destruct (subscribers_wf_reachable w Hr sessionId) as (Hnd & Hin).
  rewrite broadcast_run. unfold calls_of, deliveries. cbn [snd]. split.
  - apply NoDup_fmap_2; [|apply NoDup_filter; exact Hnd].
    intros c1 c2 Heq. injection Heq as ->. reflexivity.
  - intros c Hc. apply list_elem_of_fmap in Hc as (c' & Heq & Hc').
    injection Heq as <-. apply list_elem_of_filter in Hc' as [Ho Hc'].
    destruct (Hin c Hc') as (ch & Hch & Hs & _). exists ch.
    split; [exact Hch|]. split; [exact Hs|].
    unfold is_open, readyState in Ho. rewrite Hch in Ho. exact Ho.
Qed.

(** X10.  A push channel that connects without a [sessionId] (or with an
    empty one) is told to close with code 1008 and joins no subscriber
    list.  One that connects with a [sessionId] is appended to the end of
    that id's list, the other lists and the registry stay as they are, and
    it is sent the current status of the session at once if, and only if,
    the registry has an entry for the id. *)
Theorem push_channel_connects (w : World) (sessionId : option string) :
  (JsString.falsy sessionId = true →
   ∃ w', exec w (WsConnect sessionId)
         = Some (w', [WsCloseCall (length (chans w)) 1008 "sessionId required"]) ∧
         readyState (length (chans w)) w' = CLOSING ∧
         wsClients w' = wsClients w ∧ sessions w' = sessions w) ∧
  (∀ sid, sessionId = Some sid → sid ≠ "" →
     ∃ w', exec w (WsConnect sessionId) = Some (w', snapshot sid w) ∧
           subscribers sid w' = subscribers sid w ++ [length (chans w)] ∧
           (∀ sid', sid' ≠ sid → subscribers sid' w' = subscribers sid' w) ∧
           readyState (length (chans w)) w' = OPEN ∧
           sessions w' = sessions w ∧
           (sessions w !! sid = None → snapshot sid w = []) ∧
           (∀ s, sessions w !! sid = Some s →
              snapshot sid w = [WsSend (length (chans w)) (EvConnection (status s))])).
Proof.
  split.
  - intros Hf. cbn [exec]. rewrite wss_on_connection_run, Hf.
    eexists. split; [reflexivity|].
    unfold world_of. cbn [fst snd]. split; [|split; reflexivity].
    unfold readyState. rewrite chans_set_readyState.
    case_decide; [|congruence]. cbn [with_chans chans].
    rewrite lookup_app_r, Nat.sub_diag by reflexivity. reflexivity.
  - intros sid -> Hsid. exists (subscribed sid w).
    split; [apply exec_ws_connect; exact Hsid|].
    split; [rewrite subscribers_subscribed; case_decide; [reflexivity|congruence]|].
    split; [intros sid' Hne; rewrite subscribers_subscribed;
            case_decide; [congruence|reflexivity]|].
    split; [rewrite readyState_subscribed; case_decide; [reflexivity|congruence]|].
    split; [reflexivity|]. unfold snapshot.
    split; [intros ->; reflexivity|intros s ->; reflexivity].
Qed.

Lemma is_open_subscribed_old sid w c :
  (c < length (chans w))%nat → (is_open (subscribed sid w) c ↔ is_open w c).
Proof.
  intros Hlt. unfold is_open. rewrite readyState_subscribed.
  case_decide; [lia|reflexivity].
Qed.

Lemma deliveries_subscribed sid data w sid' :
  subscribers_wf w →
  deliveries sid' data (subscribed sid w)
  = if decide (sid = sid') then deliveries sid data w ++ [WsSend (length (chans w)) data]
    else deliveries sid' data w.
Proof.
  intros Hwf. unfold deliveries. rewrite subscribers_subscribed.
  assert (Hold : ∀ s, filter (is_open (subscribed sid w)) (subscribers s w)
                      = filter (is_open w) (subscribers s w)).
  { intros s. apply filter_ext_elem. intros c Hc.
    apply is_open_subscribed_old. exact (subscribers_lt w s c Hwf Hc). }
  case_decide as Heq.
  - rewrite filter_app, Hold, fmap_app. f_equal.
    rewrite filter_cons_True; [reflexivity|].
    unfold is_open. rewrite readyState_subscribed. case_decide; [reflexivity|congruence].
  - rewrite Hold. reflexivity.
Qed.

(** X11.  In every reachable state, once a channel has connected for an
    id, a broadcast for that id sends what it would have sent before,
    followed by one send to the new channel; broadcasts for other ids are
    what they were. *)
Theorem subscribe_then_broadcast
    (w : World) (sessionId : string) (data : wsEvent) :
  reachable w → sessionId ≠ "" →
  exec w (WsConnect (Some sessionId))
  = Some (subscribed sessionId w, snapshot sessionId w) ∧
  calls_of (broadcast sessionId data (subscribed sessionId w))
  = calls_of (broadcast sessionId data w) ++ [WsSend (length (chans w)) data] ∧
  (∀ sid', sid' ≠ sessionId →
     calls_of (broadcast sid' data (subscribed sessionId w))
     = calls_of (broadcast sid' data w)).
Proof.
  intros Hr Hsid. pose proof (subscribers_wf_reachable w Hr) as Hwf.
  split; [apply exec_ws_connect; exact Hsid|].
  split.
  - rewrite !broadcast_run. unfold calls_of. cbn [snd].
    rewrite deliveries_subscribed by exact Hwf. case_decide; [reflexivity|congruence].
  - intros sid' Hne. rewrite !broadcast_run. unfold calls_of. cbn [snd].
    rewrite deliveries_subscribed by exact Hwf. case_decide; [congruence|reflexivity].
Qed.

Lemma filter_ne_fresh (l : list nat) (c : nat) :
  c ∉ l → filter (λ c', c' ≠ c) (l ++ [c]) = l.
Proof.
  intros Hc. rewrite filter_app.
  rewrite filter_cons_False by (intros H; apply H; reflexivity).
  rewrite filter_nil, app_nil_r.
  induction l as [|a l IH]; [reflexivity|].
  rewrite filter_cons_True.
  - f_equal. apply IH. intros H. apply Hc. apply list_elem_of_further. exact H.
  - intros ->. apply Hc. apply list_elem_of_here.
Qed.

(** The state after the channel that [subscribed] added has closed. *)
Lemma exec_close_subscribed sid w :
  exec (subscribed sid w) (WsClosed (length (chans w)))
  = Some (with_wsClients
            <[sid := filter (λ c', c' ≠ length (chans w))
                       (subscribers sid (subscribed sid w))]>
            (set_readyState (length (chans w)) CLOSED (subscribed sid w)), []).
Proof.
  cbn [exec].
  assert (Hc : chans (subscribed sid w) !! length (chans w)
               = Some (mkChan (Some sid) OPEN)).
  { unfold subscribed. cbn [with_chans with_wsClients chans].
    rewrite list_lookup_alter_eq, lookup_app_r, Nat.sub_diag by reflexivity.
    reflexivity. }
  rewrite Hc. cbn [ch_readyState ch_sessionId].
  destruct (decide (OPEN = CLOSED)); [discriminate|].
  rewrite ws_on_close_run. reflexivity.
Qed.

(** X12.  In every reachable state a channel that connects for an id and
    then closes leaves every subscriber list, the registry and every later
    broadcast exactly as they were before it connected. *)
Theorem subscribe_close_round_trip (w : World) (sessionId : string) :
  reachable w → sessionId ≠ "" →
  ∃ w2,
    run w [WsConnect (Some sessionId); WsClosed (length (chans w))] = Some w2 ∧
    (∀ sid', subscribers sid' w2 = subscribers sid' w) ∧
    sessions w2 = sessions w ∧
    (∀ sid' data, calls_of (broadcast sid' data w2) = calls_of (broadcast sid' data w)).
Proof.
  intros Hr Hsid. pose proof (subscribers_wf_reachable w Hr) as Hwf.
  eexists. cbn [run]. rewrite exec_ws_connect by exact Hsid.
  rewrite exec_close_subscribed. split; [reflexivity|].
  assert (Hsubs : ∀ sid',
            subscribers sid'
              (with_wsClients
                 <[sessionId := filter (λ c', c' ≠ length (chans w))
                                  (subscribers sessionId (subscribed sessionId w))]>
                 (set_readyState (length (chans w)) CLOSED (subscribed sessionId w)))
            = subscribers sid' w).
  { intros sid'. rewrite subscribers_insert, subscribers_set_readyState.
    rewrite !subscribers_subscribed.
    destruct (decide (sessionId = sessionId)) as [_|]; [|congruence].
    case_decide as Heq; [|reflexivity]. subst sid'.
    apply filter_ne_fresh. intros Hin.
    pose proof (subscribers_lt w sessionId _ Hwf Hin). lia. }
  split; [exact Hsubs|]. split; [reflexivity|].
  intros sid' data. rewrite !broadcast_run. unfold calls_of. cbn [snd].
  unfold deliveries. rewrite Hsubs. f_equal. apply filter_ext_elem.
  intros c Hc. pose proof (subscribers_lt w sid' c Hwf Hc) as Hlt.
  unfold is_open, readyState.
  change (chans (with_wsClients ?f ?x)) with (chans x).
  rewrite chans_set_readyState. case_decide; [lia|].
  fold (readyState c (subscribed sessionId w)).
  rewrite readyState_subscribed. case_decide; [lia|]. reflexivity.
Qed.

(** X13.  In every reachable state, once the close event of a channel has
    been handled the channel is in no subscriber list, and no broadcast,
    for whatever id, sends to it. *)
Theorem closed_channel_gets_nothing
    (w w' : World) (c : nat) (log : list call) :
  reachable w → exec w (WsClosed c) = Some (w', log) →
  (∀ sid, c ∉ subscribers sid w') ∧
  (∀ sid data, WsSend c data ∉ calls_of (broadcast sid data w')).
Proof.
  intros Hr He. pose proof (subscribers_wf_reachable w Hr) as Hwf.
  assert (Hout : ∀ sid, c ∉ subscribers sid w').
  { intros sid. cbn [exec] in He.
    destruct (chans w !! c) as [ch|] eqn:Hc; [|discriminate].
    destruct (decide (ch_readyState ch = CLOSED)); [discriminate|].
    destruct (ch_sessionId ch) as [sid0|] eqn:Hs; injection He as <- _.
    - rewrite ws_on_close_run. unfold outcome, world_of. cbn [fst snd].
      rewrite subscribers_insert, !subscribers_set_readyState.
      case_decide as Heq.
      + intros Hin. apply list_elem_of_filter in Hin as [Hne _]. congruence.
      + intros Hin. destruct (proj2 (Hwf sid) c Hin) as (ch' & Hch' & Hs' & _).
        congruence.
    - rewrite subscribers_set_readyState. intros Hin.
      destruct (proj2 (Hwf sid) c Hin) as (ch' & Hch' & Hs' & _). congruence. }
  split; [exact Hout|].
  intros sid data Hin. rewrite broadcast_run in Hin. unfold calls_of, deliveries in Hin.
  cbn [snd] in Hin. apply list_elem_of_fmap in Hin as (c' & Heq & Hc').
  injection Heq as <-. apply list_elem_of_filter in Hc' as [_ Hc'].
  exact (Hout sid Hc').
Qed.

(** ** The open event and the QR artifact *)

(** X14.  When a live handle bound to an id reports [open] and the registry
    has an entry for that id, the entry keeps its handle and phone number
    and gets status [connected], whether or not the entry's handle is the
    one that opened; the other entries, the timers and the subscriber lists
    are unchanged, the connection event [connected] is broadcast for the id,
    and the status route then reports [connected]. *)
Theorem open_marks_entry_connected
    (w : World) (h : nat) (k : SockState) (s : Session) (q : option string) :
  socks w !! h = Some k → sk_live k = true →
  sessions w !! sk_sessionId k = Some s →
  ∃ w',
    exec w (SockConnectionUpdate h (mkUpdate (Some "open") None q))
    = Some (w', qr_calls (sk_sessionId k) (mkUpdate (Some "open") None q) w
                ++ calls_of (broadcast (sk_sessionId k) (EvConnection "connected") w)) ∧
    sessions w' !! sk_sessionId k
    = Some (mkSession (sock s) (phoneNumber s) "connected") ∧
    (∀ sid', sid' ≠ sk_sessionId k → sessions w' !! sid' = sessions w !! sid') ∧
    timers w' = timers w ∧ wsClients w' = wsClients w ∧ socks w' = socks w ∧
    result_of (api_status (sk_sessionId k) w')
    = Normal (mkResponse 200 (StatusBody "connected")).
Proof.
  intros Hk Hl Hs. eexists. cbn [exec]. rewrite Hk, Hl.
  destruct (decide (connection (mkUpdate (Some "open") None q) = Some "close"));
    [discriminate|].
  rewrite (on_connection_update_open (sk_sessionId k) (sk_phoneNumber k)
             (mkUpdate (Some "open") None q) w eq_refl), broadcast_run.
  unfold outcome, world_of, calls_of. cbn [fst snd].
  split; [reflexivity|]. cbn [with_sessions sessions timers wsClients socks].
  rewrite Hs. cbn [spread_status].
  split; [apply lookup_insert_eq|].
  split; [intros sid' Hne; apply lookup_insert_ne; congruence|].
  split; [reflexivity|]. split; [reflexivity|]. split; [reflexivity|].
  rewrite api_status_run. cbn [with_sessions sessions fst].
  rewrite lookup_insert_eq. reflexivity.
Qed.

(** X15.  A connection update that is neither [open] nor [close] changes
    no state; if it carries a non-empty QR artifact, that artifact is
    broadcast verbatim as a [qr] event to the open subscribers of the id,
    and otherwise nothing is sent at all. *)
Theorem qr_artifact_is_forwarded
    (sessionId phoneNumber : string) (u : ConnectionUpdate) (w : World) :
  connection u ≠ Some "open" → connection u ≠ Some "close" →
  world_of (on_connection_update sessionId phoneNumber u w) = w ∧
  result_of (on_connection_update sessionId phoneNumber u w) = Normal tt ∧
  (∀ code, qr u = Some code → code ≠ "" →
     calls_of (on_connection_update sessionId phoneNumber u w)
     = calls_of (broadcast sessionId (EvQr code) w)) ∧
  (qr u = None ∨ qr u = Some "" →
     calls_of (on_connection_update sessionId phoneNumber u w) = []).
Proof.
  intros Ho Hc. rewrite (on_connection_update_other _ _ _ _ Ho Hc).
  unfold world_of, result_of, calls_of, qr_calls. cbn [fst snd].
  split; [reflexivity|]. split; [reflexivity|]. split.
  - intros code -> Hne. rewrite broadcast_run.
    destruct code; [contradiction|]. reflexivity.
  - intros [-> | ->]; reflexivity.
Qed.

(** X16.  From any state, a successful pairing request for an id followed
    by the open event of the handle it created leaves the id registered
    with that handle, the digits of the phone number and status
    [connected]; the status route reports [connected], and a send request
    reaches that handle, once, with the completed address. *)
Theorem pair_then_open_connects
    (w : World) (sid phone code to text : string) :
  sid ≠ "" → phone ≠ "" →
  let h := length (socks w) in
  let clean := JsString.replace_non_digits phone in
  ∃ w2,
    run w [HttpPair (Some sid) (Some phone) (mkPairOracle None (inl code));
           SockConnectionUpdate h (mkUpdate (Some "open") None None)] = Some w2 ∧
    sessions w2 !! sid = Some (mkSession (Some h) (Some clean) "connected") ∧
    api_status sid w2 = (Normal (mkResponse 200 (StatusBody "connected")), w2, []) ∧
    api_send (Some sid) (Some to) text None w2
    = (Normal (mkResponse 200 SuccessBody), w2, [SockSendMessage h (jid_of to) text]).
Proof.
  intros Hsid Hphone. cbv zeta.
  assert (Hf : JsString.falsy (Some sid) || JsString.falsy (Some phone) = false).
  { destruct sid, phone; try contradiction; reflexivity. }
  eexists. cbn [run exec]. rewrite (api_pair_run _ _ _ _ Hf).
  cbn [setup_outcome pairing_outcome default outcome world_of fst snd].
  assert (Hk : socks (created sid (JsString.replace_non_digits phone) w)
               !! length (socks w)
               = Some (mkSock sid (JsString.replace_non_digits phone) true)).
  { unfold created. cbn [with_sessions with_socks socks].
    rewrite lookup_app_r, Nat.sub_diag by reflexivity. reflexivity. }
  unfold id. rewrite Hk. cbn [sk_live sk_sessionId sk_phoneNumber].
  destruct (decide (connection (mkUpdate (Some "open") None None) = Some "close"));
    [discriminate|].
  rewrite (on_connection_update_open sid (JsString.replace_non_digits phone)
             (mkUpdate (Some "open") None None) _ eq_refl).
  cbn [outcome world_of fst snd]. split; [reflexivity|].
  assert (Hs : sessions
                 (with_sessions
                    <[sid := spread_status
                               (sessions (created sid (JsString.replace_non_digits phone) w)
                                  !! sid) "connected"]>
                    (created sid (JsString.replace_non_digits phone) w)) !! sid
               = Some (mkSession (Some (length (socks w)))
                         (Some (JsString.replace_non_digits phone)) "connected")).
  { cbn [with_sessions sessions]. rewrite lookup_insert_eq.
    unfold created. cbn [with_sessions sessions]. rewrite lookup_insert_eq. reflexivity. }
  split; [exact Hs|]. split.
  - rewrite api_status_run, Hs. reflexivity.
  - apply (api_send_run_connected (Some sid) to text None _ _ _ Hs); reflexivity.
Qed.

(** ** Recipient addresses *)

Lemma includes_append (c : ascii) (a b : string) :
  JsString.includes c (String.append a b) = JsString.includes c a || JsString.includes c b.
Proof.
  induction a as [|d r IH]; [reflexivity|].
  simpl. destruct (Ascii.eqb d c); [reflexivity|exact IH].
Qed.

(** X17.  The address computed for a recipient always contains [@]; a
    recipient that already contains [@] is used as it is, and computing
    the address of an address changes nothing. *)
Theorem jid_of_is_an_address (to : string) :
  JsString.includes "@" (jid_of to) = true ∧
  (JsString.includes "@" to = true → jid_of to = to) ∧
  (JsString.includes "@" to = false → jid_of to = String.append to "@s.whatsapp.net") ∧
  jid_of (jid_of to) = jid_of to.
Proof.
  assert (H1 : JsString.includes "@" (jid_of to) = true).
  { unfold jid_of. destruct (JsString.includes "@" to) eqn:E; [exact E|].
    rewrite includes_append, E. reflexivity. }
  split; [exact H1|]. split; [|split].
  - intros E. unfold jid_of. rewrite E. reflexivity.
  - intros E. unfold jid_of. rewrite E. reflexivity.
  - unfold jid_of at 1. rewrite H1. reflexivity.
Qed.

(** ** A whole batch *)



Lemma pushes_batch_calls sessionId sock msgs o i w :
  pushes (batch_calls sessionId sock msgs o i w)
  = match msgs with
    | [] => []
    | m :: rest =>
        (if eligible m then deliveries sessionId (message_event m (o i)) w else [])
        ++ pushes (batch_calls sessionId sock rest o (S i) w)
    end.
Proof.
  destruct msgs as [|m rest]; [reflexivity|].
  cbn [batch_calls]. rewrite pushes_app, pushes_process_message. reflexivity.
Qed.


(** ** What the read-only callbacks leave alone *)

(** X20.  The status route, the send route, the health route and the
    [messages.upsert] handler never change the state: registry, subscriber
    lists, handles, timers and channels are the same afterwards, whatever
    the request or batch and whatever the transport answers. *)
Theorem read_only_callbacks
    (w : World) (sessionId : string) (key to : option string) (text : string)
    (outcome : option string) (sock : handle) (msgs : list WAMessage)
    (type : string) (orc : nat → MsgOracle) :
  world_of (api_status sessionId w) = w ∧
  world_of (api_send key to text outcome w) = w ∧
  world_of (api_health w) = w ∧
  world_of (on_messages_upsert sessionId sock msgs type orc w) = w.
Proof.
  split; [apply api_status_world|]. split; [apply api_send_world|].
  split; [reflexivity|apply on_messages_upsert_world].
Qed.

(** X21.  [POST /api/send] without a [sessionId] answers 400 like an
    unknown session.  For a connected session, a request without [to], or
    an entry that holds no handle, is answered with 500 and an error
    message; in both cases the transport is not called and nothing
    changes. *)
Theorem send_route_malformed
    (sessionId to : option string) (text : string) (outcome : option string)
    (w : World) :
  (sessionId = None →
   api_send sessionId to text outcome w
   = (Normal (mkResponse 400 (ErrorBody "Session not connected")), w, [])) ∧
  (∀ s, sessions_get sessionId w = Some s → status s = "connected" →
     to = None ∨ sock s = None →
     ∃ e, api_send sessionId to text outcome w
          = (Normal (mkResponse 500 (ErrorBody e)), w, [])).
Proof.
  split.
  - intros ->. apply api_send_run_not_connected. exact I.
  - intros s Hg Hs Hbad. unfold api_send. unfold_m. rewrite Hg.
    destruct (decide (status s ≠ "connected")); [contradiction|].
    destruct to as [t|].
    + destruct Hbad as [Hbad|Hbad]; [discriminate|]. rewrite Hbad.
      eexists. reflexivity.
    + eexists. reflexivity.
Qed.

End Server.

(** * Concrete runs

    The runs below use ASCII text, for which [String.prototype.toLowerCase]
    is the ASCII case mapping. *)

#[local] Existing Instance ascii_runtime.

Lemma broadcast_delivers_to_open_channels_witness :
  let w := mkWorld ∅ {["s1" := [0; 1; 2]%nat]} [] []
             [mkChan (Some "s1") OPEN; mkChan (Some "s1") CLOSING; mkChan (Some "s1") OPEN] in
  calls_of (broadcast "s1" (EvQr "q") w) = [WsSend 0%nat (EvQr "q"); WsSend 2%nat (EvQr "q")] ∧
  broadcast "nobody" (EvQr "q") w = (Normal tt, w, []).
Proof.
  cbv zeta. split.
  - rewrite (proj1 (proj2 (broadcast_delivers_to_open_channels "s1" (EvQr "q") _))).
    vm_compute. reflexivity.
  - apply (proj2 (proj2 (proj2 (proj2
             (broadcast_delivers_to_open_channels "nobody" (EvQr "q") _))))).
    left. vm_compute. reflexivity.
Defined.



Lemma rejected_reply_silences_later_messages_witness :
  let ping := mkMsg (mkKey "a@s.whatsapp.net" false) (Some (mkContent (Some "/ping") None)) in
  let hello := mkMsg (mkKey "b@s.whatsapp.net" false) (Some (mkContent (Some "hello") None)) in
  let w := mkWorld ∅ {["s1" := [0%nat]]} [] [] [mkChan (Some "s1") OPEN] in
  let orc := λ i : nat, mkOracle 1000 (match i with O => Some "Connection Closed" | _ => None end) in
  eligible hello = true ∧
  pushes (calls_of (on_messages_upsert "s1" 0%nat [ping; hello] "notify" orc w))
  = [WsSend 0%nat (EvMessage "a@s.whatsapp.net" "/ping" 1000)].
Proof.
  intros ping hello w orc. split; [reflexivity|].
  destruct (rejected_reply_silences_later_messages "s1" 0%nat ping [hello] orc w
              "Connection Closed" eq_refl eq_refl eq_refl) as (_ & H).
  rewrite H. vm_compute. reflexivity.
Defined.

Lemma command_acknowledgement_witness :
  let status := mkMsg (mkKey "a@s.whatsapp.net" false)
                  (Some (mkContent (Some "/STATUS now") None)) in
  replies (calls_of (process_message "s1" 0%nat status (mkOracle 1000 None) init))
  = [SockSendMessage 0%nat "a@s.whatsapp.net" "Command received: /status"].
Proof.
  cbv zeta.
  pose proof (command_acknowledgement "s1" 0%nat [] []
                (mkMsg (mkKey "a@s.whatsapp.net" false)
                   (Some (mkContent (Some "/STATUS now") None)))
                "notify" (λ _, mkOracle 1000 None) init eq_refl) as (H & _).
  destruct (H eq_refl) as (Hr & _). exact Hr.
Defined.

(** C6 (as stated) fails: for the text [/Status<TAB>now] the reply carries
    the command [status<TAB>now], which is not the first
    whitespace-delimited token [status]. *)
Lemma ack_token_is_space_delimited_only :
  let msg := mkMsg (mkKey "a@s.whatsapp.net" false)
               (Some (mkContent (Some tabbed_text) None)) in
  replies (calls_of (process_message "s1" 0%nat msg (mkOracle 1000 None) init))
  = [SockSendMessage 0%nat "a@s.whatsapp.net"
       (String.append "Command received: /status" (String "009" "now"))] ∧
  claimed_command tabbed_text = "status" ∧
  replies (calls_of (process_message "s1" 0%nat msg (mkOracle 1000 None) init))
  ≠ [SockSendMessage 0%nat "a@s.whatsapp.net"
       (String.append "Command received: /" (claimed_command tabbed_text))].
Proof.
  cbv zeta. split; [vm_compute; reflexivity|].
  split; [vm_compute; reflexivity|].
  vm_compute. intros H. discriminate H.
Qed.

Lemma failed_ack_abandons_batch_witness :
  let ping := mkMsg (mkKey "a@s.whatsapp.net" false) (Some (mkContent (Some "/ping") None)) in
  let hello := mkMsg (mkKey "b@s.whatsapp.net" false) (Some (mkContent (Some "hello") None)) in
  let w := mkWorld ∅ {["s1" := [0%nat]]} [] [] [mkChan (Some "s1") OPEN] in
  let orc := λ i : nat, mkOracle 1000 (match i with O => Some "Connection Closed" | _ => None end) in
  on_messages_upsert "s1" 0%nat [ping; hello] "notify" orc w
  = (Thrown "Connection Closed", w,
     [WsSend 0%nat (EvMessage "a@s.whatsapp.net" "/ping" 1000);
      SockSendMessage 0%nat "a@s.whatsapp.net" "Command received: /ping"]).
Proof.
  intros ping hello w orc.
  rewrite (failed_ack_abandons_batch "s1" 0%nat ping [hello] orc w "Connection Closed"
             eq_refl eq_refl eq_refl).
  vm_compute. reflexivity.
Defined.

Lemma pairing_flow_witness :
  api_pair None (Some "+1 555 123 4567") (mkPairOracle None (inl "ABCD1234")) init
  = (Normal (mkResponse 400 (ErrorBody "sessionId and phoneNumber required")), init, []) ∧
  api_pair (Some "s1") (Some "+1 555 123 4567") (mkPairOracle None (inl "ABCD1234")) init
  = (Normal (mkResponse 200 (PairBody "ABCD1234" pair_message)),
     created "s1" "15551234567" init,
     [MakeWASocket 0%nat; Delay 2000; SockRequestPairingCode 0%nat "15551234567"]).
Proof.
  split.
  - apply (proj1 (pairing_flow None (Some "+1 555 123 4567")
                    (mkPairOracle None (inl "ABCD1234")) init)).
    left. reflexivity.
  - destruct (proj2 (pairing_flow (Some "s1") (Some "+1 555 123 4567")
                       (mkPairOracle None (inl "ABCD1234")) init)
                "s1" "+1 555 123 4567" eq_refl eq_refl)
      as (_ & _ & _ & H & _); [discriminate|discriminate|].
    exact (H "ABCD1234" eq_refl eq_refl).
Defined.

Lemma send_route_witness :
  api_send (Some "s1") (Some "15557654321") "hi" None connected_world
  = (Normal (mkResponse 200 SuccessBody), connected_world,
     [SockSendMessage 0%nat "15557654321@s.whatsapp.net" "hi"]) ∧
  api_send (Some "s2") (Some "15557654321") "hi" None connected_world
  = (Normal (mkResponse 400 (ErrorBody "Session not connected")), connected_world, []).
Proof.
  split.
  - destruct (proj2 (send_route (Some "s1") (Some "15557654321") "hi" None connected_world)
                (mkSession (Some 0%nat) (Some "15551234567") "connected") 0%nat
                "15557654321" eq_refl eq_refl eq_refl eq_refl)
      as (Hc & Hw & Hr & _).
    rewrite (triple_eta (api_send _ _ _ _ _)), Hc, Hw, (Hr eq_refl). reflexivity.
  - apply (proj1 (send_route (Some "s2") (Some "15557654321") "hi" None connected_world)).
    left. reflexivity.
Defined.

(** C8 (as stated) fails: the session is connected, the transport receives
    the one call, the call is rejected, and the answer is 500, not
    [{success: true}]. *)
Lemma send_rejected_answers_500 :
  run init [HttpPair (Some "s1") (Some "15551234567") (mkPairOracle None (inl "ABCD1234"));
            SockConnectionUpdate 0%nat (mkUpdate (Some "open") None None)]
  = Some connected_world ∧
  sessions connected_world !! "s1"
  = Some (mkSession (Some 0%nat) (Some "15551234567") "connected") ∧
  api_send (Some "s1") (Some "15557654321") "hi" (Some "Connection Closed") connected_world
  = (Normal (mkResponse 500 (ErrorBody "Connection Closed")), connected_world,
     [SockSendMessage 0%nat "15557654321@s.whatsapp.net" "hi"]) ∧
  result_of (api_send (Some "s1") (Some "15557654321") "hi" (Some "Connection Closed")
               connected_world)
  ≠ Normal (mkResponse 200 SuccessBody).
Proof.
  split; [vm_compute; reflexivity|].
  split; [vm_compute; reflexivity|].
  split; [vm_compute; reflexivity|].
  vm_compute. intros H. discriminate H.
Qed.

Lemma registry_supersedes_witness :
  registered_handle "s1" (created "s1" "15551234567" init) = Some 0%nat ∧
  registered_handle "s1" twice_paired = Some 1%nat.
Proof.
  assert (Hr : reachable (created "s1" "15551234567" init)).
  { exists [HttpPair (Some "s1") (Some "15551234567") (mkPairOracle None (inl "ABCD1234"))].
    vm_compute. reflexivity. }
  split.
  - vm_compute. reflexivity.
  - destruct (registry_supersedes _ Hr) as (_ & _ & H & _).
    destruct (H "s1" "15551234567") as (_ & _ & Hreg & _). exact Hreg.
Defined.

(** C1 (as stated) fails: after two pairing requests for one id both
    handles are live and bound to that id; only the second is in the
    registry. *)
Lemma two_live_handles_for_one_id :
  run init [HttpPair (Some "s1") (Some "15551234567") (mkPairOracle None (inl "ABCD1234"));
            HttpPair (Some "s1") (Some "15551234567") (mkPairOracle None (inl "EFGH5678"))]
  = Some twice_paired ∧
  live_handles "s1" twice_paired = [0%nat; 1%nat] ∧
  registered_handle "s1" twice_paired = Some 1%nat ∧
  ¬ (∀ w, reachable w → ∀ sid, (length (live_handles sid w) ≤ 1)%nat).
Proof.
  assert (Hrun : run init
            [HttpPair (Some "s1") (Some "15551234567") (mkPairOracle None (inl "ABCD1234"));
             HttpPair (Some "s1") (Some "15551234567") (mkPairOracle None (inl "EFGH5678"))]
          = Some twice_paired) by (vm_compute; reflexivity).
  assert (Hlive : live_handles "s1" twice_paired = [0%nat; 1%nat])
    by (vm_compute; reflexivity).
  split; [exact Hrun|]. split; [exact Hlive|]. split; [vm_compute; reflexivity|].
  intros H. specialize (H twice_paired (ex_intro _ _ Hrun) "s1").
  rewrite Hlive in H. cbn in H. lia.
Qed.

Lemma open_after_removal_inserts_entry_witness :
  run init [HttpPair (Some "s1") (Some "15551234567") (mkPairOracle None (inl "ABCD1234"));
            HttpPair (Some "s1") (Some "15551234567") (mkPairOracle None (inl "EFGH5678"));
            SockConnectionUpdate 0%nat (mkUpdate (Some "close") (Some loggedOut) None)]
  = Some superseded_logged_out ∧
  sessions superseded_logged_out !! "s1" = None ∧
  is_live_for "s1" superseded_logged_out 1%nat = true ∧
  exec superseded_logged_out (SockConnectionUpdate 1%nat (mkUpdate (Some "open") None None))
  = Some (outcome (on_connection_update "s1" "15551234567"
                     (mkUpdate (Some "open") None None) superseded_logged_out)) ∧
  sessions (world_of (on_connection_update "s1" "15551234567"
                        (mkUpdate (Some "open") None None) superseded_logged_out)) !! "s1"
  = Some (mkSession None None "connected").
Proof.
  split; [vm_compute; reflexivity|].
  split; [vm_compute; reflexivity|].
  split; [vm_compute; reflexivity|].
  split; [reflexivity|].
  apply (open_after_removal_inserts_entry "s1" "15551234567"
           (mkUpdate (Some "open") None None) superseded_logged_out).
  - vm_compute. reflexivity.
  - reflexivity.
Defined.

Lemma broadcast_frame_witness :
  let w := mkWorld ∅ {["s1" := [0; 1; 2]%nat]} [] []
             [mkChan (Some "s1") OPEN; mkChan (Some "s1") CLOSING; mkChan (Some "s1") OPEN] in
  let w' := with_wsClients <["s1" := [0; 2]%nat]> (set_readyState 1%nat CLOSED w) in
  subscribers "s1" (world_of (broadcast "s1" (EvConnection "connected") w)) = [0; 1; 2]%nat ∧
  exec w (WsClosed 1%nat) = Some (w', []) ∧
  filter (λ c', c' ≠ 1%nat) (subscribers "s1" w') = [0; 2]%nat.
Proof.
  intros w w'.
  assert (He : exec w (WsClosed 1%nat) = Some (w', [])) by (vm_compute; reflexivity).
  split; [|split; [exact He|]].
  - rewrite (proj1 (broadcast_frame "s1" (EvConnection "connected") w)). reflexivity.
  - rewrite (proj2 (proj2 (proj2 (broadcast_frame "s1" (EvConnection "connected") w)))
               1%nat w' [] "s1" He).
    vm_compute. reflexivity.
Defined.

Lemma status_route_reports_witness :
  ∃ st,
    api_status "s1" connected_world
    = (Normal (mkResponse 200 (StatusBody st)), connected_world, []) ∧
    (st = "not_found" ∨ st = "connecting" ∨ st = "connected") ∧
    (st = "not_found" ↔ sessions connected_world !! "s1" = None) ∧
    st ≠ "logged_out".
Proof.
  apply (status_route_reports connected_world "s1").
  exists connect_s1. vm_compute. reflexivity.
Defined.

Lemma stored_phone_numbers_are_digits_witness :
  run init [HttpPair (Some "s1") (Some "+1 (555) 123-4567")
              (mkPairOracle None (inl "ABCD1234"))]
  = Some (created "s1" "15551234567" init) ∧
  digits_only "15551234567" = true.
Proof.
  split; [vm_compute; reflexivity|].
  assert (Hr : reachable (created "s1" "15551234567" init)).
  { exists [HttpPair (Some "s1") (Some "+1 (555) 123-4567")
              (mkPairOracle None (inl "ABCD1234"))].
    vm_compute. reflexivity. }
  destruct (stored_phone_numbers_are_digits _ Hr) as (Hs & _).
  apply (Hs "s1" (mkSession (Some 0%nat) (Some "15551234567") "connecting")).
  - vm_compute. reflexivity.
  - reflexivity.
Defined.

Lemma pending_timers_belong_to_closed_handles_witness :
  run init lose_s1 = Some lost_world ∧
  timers lost_world = [mkTimer 5000 "s1" "15551234567"] ∧
  ∃ h k, socks lost_world !! h = Some k ∧ sk_live k = false ∧
         sk_sessionId k = "s1" ∧ sk_phoneNumber k = "15551234567".
Proof.
  assert (Hrun : run init lose_s1 = Some lost_world) by (vm_compute; reflexivity).
  split; [exact Hrun|]. split; [reflexivity|].
  apply (pending_timers_belong_to_closed_handles lost_world
           (mkTimer 5000 "s1" "15551234567")).
  - exists lose_s1. exact Hrun.
  - apply list_elem_of_here.
Defined.

Lemma failed_reconnection_is_not_retried_witness :
  exec lost_world (TimerFire 0%nat (Some "ENOSPC"))
  = Some (mark_closed 0%nat connected_world, []) ∧
  unhandled_rejection lost_world (TimerFire 0%nat (Some "ENOSPC")) = Some "ENOSPC".
Proof.
  destruct (failed_reconnection_is_not_retried lost_world 0%nat
              (mkTimer 5000 "s1" "15551234567") "ENOSPC" eq_refl) as (H & Hr & _).
  split; [exact H|exact Hr].
Defined.

Lemma disconnect_route_witness :
  api_disconnect "s1" None connected_world
  = (Normal (mkResponse 200 SuccessBody),
     with_sessions (delete "s1") connected_world, [SockLogout 0%nat]) ∧
  api_disconnect "s2" None connected_world
  = (Normal (mkResponse 200 SuccessBody), connected_world, []).
Proof.
  pose proof (disconnect_route "s1" None connected_world) as (_ & H1 & _).
  pose proof (disconnect_route "s2" None connected_world) as (H2 & _).
  split.
  - destruct (H1 (mkSession (Some 0%nat) (Some "15551234567") "connected") 0%nat
                eq_refl eq_refl) as (Hok & _).
    destruct (Hok eq_refl) as (Hr & _). exact Hr.
  - apply H2. vm_compute. reflexivity.
Defined.

Lemma disconnect_keeps_reconnection_timer_witness :
  let w1 := world_of (api_disconnect "s1" None lost_world) in
  sessions w1 !! "s1" = None ∧
  ∃ w2 log,
    exec w1 (TimerFire 0%nat None) = Some (w2, log) ∧
    log = [MakeWASocket 1%nat] ∧
    sessions w2 !! "s1" = Some (mkSession (Some 1%nat) (Some "15551234567") "connecting").
Proof.
  destruct (disconnect_keeps_reconnection_timer lost_world "s1"
              (mkSession (Some 0%nat) (Some "15551234567") "connected") 0%nat 0%nat
              (mkTimer 5000 "s1" "15551234567") eq_refl eq_refl eq_refl eq_refl)
    as (Hn & _ & Hex).
  split; [exact Hn|exact Hex].
Defined.


Lemma subscriber_lists_wellformed_witness :
  NoDup (subscribers "s1" (subscribed "s1" (subscribed "s1" init))) ∧
  subscribers "s1" (subscribed "s1" (subscribed "s1" init)) = [0; 1]%nat.
Proof.
  split; [|vm_compute; reflexivity].
  apply (subscriber_lists_wellformed (subscribed "s1" (subscribed "s1" init)) "s1").
  exists [WsConnect (Some "s1"); WsConnect (Some "s1")]. vm_compute. reflexivity.
Defined.

Lemma broadcast_is_isolated_witness :
  let w := subscribed "s2" (subscribed "s1" init) in
  NoDup (calls_of (broadcast "s1" (EvQr "q") w)) ∧
  calls_of (broadcast "s1" (EvQr "q") w) = [WsSend 0%nat (EvQr "q")].
Proof.
  intros w. split; [|vm_compute; reflexivity].
  apply (broadcast_is_isolated w "s1" (EvQr "q")).
  exists [WsConnect (Some "s1"); WsConnect (Some "s2")]. vm_compute. reflexivity.
Defined.

Lemma push_channel_connects_witness :
  ∃ w', exec connected_world (WsConnect (Some "s1"))
        = Some (w', [WsSend 0%nat (EvConnection "connected")]) ∧
        subscribers "s1" w' = [0%nat].
Proof.
  destruct (proj2 (push_channel_connects connected_world (Some "s1")) "s1" eq_refl)
    as (w' & He & Hs & _); [discriminate|].
  exists w'. split; [exact He|exact Hs].
Defined.

Lemma subscribe_then_broadcast_witness :
  calls_of (broadcast "s1" (EvQr "q") (subscribed "s1" (subscribed "s1" init)))
  = [WsSend 0%nat (EvQr "q"); WsSend 1%nat (EvQr "q")].
Proof.
  assert (Hr : reachable (subscribed "s1" init)).
  { exists [WsConnect (Some "s1")]. vm_compute. reflexivity. }
  destruct (subscribe_then_broadcast (subscribed "s1" init) "s1" (EvQr "q") Hr)
    as (_ & H & _); [discriminate|].
  rewrite H. vm_compute. reflexivity.
Defined.

Lemma subscribe_close_round_trip_witness :
  ∃ w2,
    run (subscribed "s1" init) [WsConnect (Some "s1"); WsClosed 1%nat] = Some w2 ∧
    (∀ sid', subscribers sid' w2 = subscribers sid' (subscribed "s1" init)).
Proof.
  assert (Hr : reachable (subscribed "s1" init)).
  { exists [WsConnect (Some "s1")]. vm_compute. reflexivity. }
  destruct (subscribe_close_round_trip (subscribed "s1" init) "s1" Hr)
    as (w2 & Hrun & Hs & _); [discriminate|].
  exists w2. split; [exact Hrun|exact Hs].
Defined.

Lemma closed_channel_gets_nothing_witness :
  ∃ w', exec (subscribed "s1" init) (WsClosed 0%nat) = Some (w', []) ∧
        ∀ sid, 0%nat ∉ subscribers sid w'.
Proof.
  assert (Hr : reachable (subscribed "s1" init)).
  { exists [WsConnect (Some "s1")]. vm_compute. reflexivity. }
  eexists. split; [apply (exec_close_subscribed "s1" init)|].
  apply (closed_channel_gets_nothing (subscribed "s1" init) _ 0%nat [] Hr
           (exec_close_subscribed "s1" init)).
Defined.

Lemma open_marks_entry_connected_witness :
  ∃ w',
    exec twice_paired (SockConnectionUpdate 0%nat (mkUpdate (Some "open") None None))
    = Some (w', []) ∧
    sessions w' !! "s1" = Some (mkSession (Some 1%nat) (Some "15551234567") "connected").
Proof.
  destruct (open_marks_entry_connected twice_paired 0%nat
              (mkSock "s1" "15551234567" true)
              (mkSession (Some 1%nat) (Some "15551234567") "connecting") None
              eq_refl eq_refl eq_refl) as (w' & He & Hs & _).
  exists w'. split; [exact He|exact Hs].
Defined.

Lemma qr_artifact_is_forwarded_witness :
  calls_of (on_connection_update "s1" "15551234567"
              (mkUpdate None None (Some "2@abc")) (subscribed "s1" init))
  = [WsSend 0%nat (EvQr "2@abc")].
Proof.
  destruct (qr_artifact_is_forwarded "s1" "15551234567"
              (mkUpdate None None (Some "2@abc")) (subscribed "s1" init))
    as (_ & _ & H & _); [discriminate|discriminate|].
  rewrite (H "2@abc" eq_refl) by discriminate. vm_compute. reflexivity.
Defined.

Lemma pair_then_open_connects_witness :
  ∃ w2,
    run init [HttpPair (Some "s1") (Some "15551234567") (mkPairOracle None (inl "ABCD1234"));
              SockConnectionUpdate 0%nat (mkUpdate (Some "open") None None)] = Some w2 ∧
    api_send (Some "s1") (Some "15557654321") "hi" None w2
    = (Normal (mkResponse 200 SuccessBody), w2,
       [SockSendMessage 0%nat "15557654321@s.whatsapp.net" "hi"]).
Proof.
  destruct (pair_then_open_connects init "s1" "15551234567" "ABCD1234" "15557654321" "hi")
    as (w2 & Hrun & _ & _ & Hsend); [discriminate|discriminate|].
  exists w2. split; [exact Hrun|exact Hsend].
Defined.

Lemma jid_of_is_an_address_witness :
  jid_of "15557654321" = "15557654321@s.whatsapp.net" ∧
  jid_of "12345-678@g.us" = "12345-678@g.us".
Proof.
  split.
  - apply (proj1 (proj2 (proj2 (jid_of_is_an_address "15557654321")))). reflexivity.
  - apply (proj1 (proj2 (jid_of_is_an_address "12345-678@g.us"))). reflexivity.
Defined.


Lemma send_route_malformed_witness :
  ∃ e, api_send (Some "s1") None "hi" None connected_world
       = (Normal (mkResponse 500 (ErrorBody e)), connected_world, []).
Proof.
  apply (proj2 (send_route_malformed (Some "s1") None "hi" None connected_world)
           (mkSession (Some 0%nat) (Some "15551234567") "connected")).
  - reflexivity.
  - reflexivity.
  - left. reflexivity.
Defined.
